(** * Emergency triage of survey notes: a shallow embedding of
      [emergency_detector.py] and the properties of its two-stage
      classification and batch update. *)

From Stdlib Require Import ZArith NArith Bool Ascii String List Lia.
From stdpp Require Import base option strings list gmap.
Import ListNotations.
Local Open Scope string_scope.
Local Open Scope list_scope.

(** ** Python values and exceptions *)

(** A Python [str]: its code points.  (The [string]s of this file are the
    literals of the source; [Str.txt] reads one as a [str].) *)
Abbreviation text := (list N).

(** The values a feature attribute can hold once the layer's JSON has been
    decoded. *)
Inductive PyVal : Type :=
  | VNone
  | VBool (b : bool)
  | VInt (n : Z)
  | VStr (s : text).

Inductive exn : Type :=
  | ImportError
  | AttributeError
  | IndexError
  | Exception (msg : string).

(** Outcome of evaluating a Python expression: a value or a raised
    exception. *)
Inductive result (A : Type) : Type :=
  | Ok (a : A)
  | Raise (e : exn).
Arguments Ok {A} a.
Arguments Raise {A} e.

Definition result_bind {A B} (m : result A) (k : A -> result B) : result B :=
  match m with
  | Ok a => k a
  | Raise e => Raise e
  end.

Notation "x <~ m ;; k" := (result_bind m (fun x => k))
  (at level 100, m at next level, right associativity).

(** ** String primitives ([str.lower], [str.upper], [str.strip], [in]) *)

Module Str.

(** A literal of the source as a [str]. *)
Definition txt (s : string) : text :=
  map N_of_ascii (list_ascii_of_string s).

(** *** The character tables

    The case mappings and character classes are those of the Unicode
    character database (version 14.0) as CPython's [unicodeobject.c] uses
    them.  A rule [(first, count, step, image)] maps the [count] characters
    [first], [first + step], ... to [image], [image + step], ...; the
    characters with a longer image are listed one by one. *)

Definition lower_rules : list (N * N * N * N) :=
  [
    (65, 26, 1, 97); (192, 23, 1, 224); (216, 7, 1, 248); (256, 24, 2, 257);
    (306, 3, 2, 307); (313, 8, 2, 314); (330, 23, 2, 331); (376, 1, 1, 255);
    (377, 3, 2, 378); (385, 1, 1, 595); (386, 2, 2, 387); (390, 1, 1, 596);
    (391, 1, 1, 392); (393, 2, 1, 598); (395, 1, 1, 396); (398, 1, 1, 477);
    (399, 1, 1, 601); (400, 1, 1, 603); (401, 1, 1, 402); (403, 1, 1, 608);
    (404, 1, 1, 611); (406, 1, 1, 617); (407, 1, 1, 616); (408, 1, 1, 409);
    (412, 1, 1, 623); (413, 1, 1, 626); (415, 1, 1, 629); (416, 3, 2, 417);
    (422, 1, 1, 640); (423, 1, 1, 424); (425, 1, 1, 643); (428, 1, 1, 429);
    (430, 1, 1, 648); (431, 1, 1, 432); (433, 2, 1, 650); (435, 2, 2, 436);
    (439, 1, 1, 658); (440, 1, 1, 441); (444, 1, 1, 445); (452, 1, 1, 454);
    (453, 1, 1, 454); (455, 1, 1, 457); (456, 1, 1, 457); (458, 1, 1, 460);
    (459, 9, 2, 460); (478, 9, 2, 479); (497, 1, 1, 499); (498, 2, 2, 499);
    (502, 1, 1, 405); (503, 1, 1, 447); (504, 20, 2, 505); (544, 1, 1, 414);
    (546, 9, 2, 547); (570, 1, 1, 11365); (571, 1, 1, 572); (573, 1, 1,
    410); (574, 1, 1, 11366); (577, 1, 1, 578); (579, 1, 1, 384); (580, 1,
    1, 649); (581, 1, 1, 652); (582, 5, 2, 583); (880, 2, 2, 881); (886, 1,
    1, 887); (895, 1, 1, 1011); (902, 1, 1, 940); (904, 3, 1, 941); (908, 1,
    1, 972); (910, 2, 1, 973); (913, 17, 1, 945); (931, 9, 1, 963); (975, 1,
    1, 983); (984, 12, 2, 985); (1012, 1, 1, 952); (1015, 1, 1, 1016);
    (1017, 1, 1, 1010); (1018, 1, 1, 1019); (1021, 3, 1, 891); (1024, 16, 1,
    1104); (1040, 32, 1, 1072); (1120, 17, 2, 1121); (1162, 27, 2, 1163);
    (1216, 1, 1, 1231); (1217, 7, 2, 1218); (1232, 48, 2, 1233); (1329, 38,
    1, 1377); (4256, 38, 1, 11520); (4295, 1, 1, 11559); (4301, 1, 1,
    11565); (5024, 80, 1, 43888); (5104, 6, 1, 5112); (7312, 43, 1, 4304);
    (7357, 3, 1, 4349); (7680, 75, 2, 7681); (7838, 1, 1, 223); (7840, 48,
    2, 7841); (7944, 8, 1, 7936); (7960, 6, 1, 7952); (7976, 8, 1, 7968);
    (7992, 8, 1, 7984); (8008, 6, 1, 8000); (8025, 4, 2, 8017); (8040, 8, 1,
    8032); (8072, 8, 1, 8064); (8088, 8, 1, 8080); (8104, 8, 1, 8096);
    (8120, 2, 1, 8112); (8122, 2, 1, 8048); (8124, 1, 1, 8115); (8136, 4, 1,
    8050); (8140, 1, 1, 8131); (8152, 2, 1, 8144); (8154, 2, 1, 8054);
    (8168, 2, 1, 8160); (8170, 2, 1, 8058); (8172, 1, 1, 8165); (8184, 2, 1,
    8056); (8186, 2, 1, 8060); (8188, 1, 1, 8179); (8486, 1, 1, 969); (8490,
    1, 1, 107); (8491, 1, 1, 229); (8498, 1, 1, 8526); (8544, 16, 1, 8560);
    (8579, 1, 1, 8580); (9398, 26, 1, 9424); (11264, 48, 1, 11312); (11360,
    1, 1, 11361); (11362, 1, 1, 619); (11363, 1, 1, 7549); (11364, 1, 1,
    637); (11367, 3, 2, 11368); (11373, 1, 1, 593); (11374, 1, 1, 625);
    (11375, 1, 1, 592); (11376, 1, 1, 594); (11378, 1, 1, 11379); (11381, 1,
    1, 11382); (11390, 2, 1, 575); (11392, 50, 2, 11393); (11499, 2, 2,
    11500); (11506, 1, 1, 11507); (42560, 23, 2, 42561); (42624, 14, 2,
    42625); (42786, 7, 2, 42787); (42802, 31, 2, 42803); (42873, 2, 2,
    42874); (42877, 1, 1, 7545); (42878, 5, 2, 42879); (42891, 1, 1, 42892);
    (42893, 1, 1, 613); (42896, 2, 2, 42897); (42902, 10, 2, 42903); (42922,
    1, 1, 614); (42923, 1, 1, 604); (42924, 1, 1, 609); (42925, 1, 1, 620);
    (42926, 1, 1, 618); (42928, 1, 1, 670); (42929, 1, 1, 647); (42930, 1,
    1, 669); (42931, 1, 1, 43859); (42932, 8, 2, 42933); (42948, 1, 1,
    42900); (42949, 1, 1, 642); (42950, 1, 1, 7566); (42951, 2, 2, 42952);
    (42960, 1, 1, 42961); (42966, 2, 2, 42967); (42997, 1, 1, 42998);
    (65313, 26, 1, 65345); (66560, 40, 1, 66600); (66736, 36, 1, 66776);
    (66928, 11, 1, 66967); (66940, 15, 1, 66979); (66956, 7, 1, 66995);
    (66964, 2, 1, 67003); (68736, 51, 1, 68800); (71840, 32, 1, 71872);
    (93760, 32, 1, 93792); (125184, 34, 1, 125218)
  ]%N.

Definition lower_multi : list (N * text) :=
  [
    (304, [105; 775])
  ]%N.

Definition upper_rules : list (N * N * N * N) :=
  [
    (97, 26, 1, 65); (181, 1, 1, 924); (224, 23, 1, 192); (248, 7, 1, 216);
    (255, 1, 1, 376); (257, 24, 2, 256); (305, 1, 1, 73); (307, 3, 2, 306);
    (314, 8, 2, 313); (331, 23, 2, 330); (378, 3, 2, 377); (383, 1, 1, 83);
    (384, 1, 1, 579); (387, 2, 2, 386); (392, 1, 1, 391); (396, 1, 1, 395);
    (402, 1, 1, 401); (405, 1, 1, 502); (409, 1, 1, 408); (410, 1, 1, 573);
    (414, 1, 1, 544); (417, 3, 2, 416); (424, 1, 1, 423); (429, 1, 1, 428);
    (432, 1, 1, 431); (436, 2, 2, 435); (441, 1, 1, 440); (445, 1, 1, 444);
    (447, 1, 1, 503); (453, 1, 1, 452); (454, 1, 1, 452); (456, 1, 1, 455);
    (457, 1, 1, 455); (459, 1, 1, 458); (460, 1, 1, 458); (462, 8, 2, 461);
    (477, 1, 1, 398); (479, 9, 2, 478); (498, 1, 1, 497); (499, 1, 1, 497);
    (501, 1, 1, 500); (505, 20, 2, 504); (547, 9, 2, 546); (572, 1, 1, 571);
    (575, 2, 1, 11390); (578, 1, 1, 577); (583, 5, 2, 582); (592, 1, 1,
    11375); (593, 1, 1, 11373); (594, 1, 1, 11376); (595, 1, 1, 385); (596,
    1, 1, 390); (598, 2, 1, 393); (601, 1, 1, 399); (603, 1, 1, 400); (604,
    1, 1, 42923); (608, 1, 1, 403); (609, 1, 1, 42924); (611, 1, 1, 404);
    (613, 1, 1, 42893); (614, 1, 1, 42922); (616, 1, 1, 407); (617, 1, 1,
    406); (618, 1, 1, 42926); (619, 1, 1, 11362); (620, 1, 1, 42925); (623,
    1, 1, 412); (625, 1, 1, 11374); (626, 1, 1, 413); (629, 1, 1, 415);
    (637, 1, 1, 11364); (640, 1, 1, 422); (642, 1, 1, 42949); (643, 1, 1,
    425); (647, 1, 1, 42929); (648, 1, 1, 430); (649, 1, 1, 580); (650, 2,
    1, 433); (652, 1, 1, 581); (658, 1, 1, 439); (669, 1, 1, 42930); (670,
    1, 1, 42928); (837, 1, 1, 921); (881, 2, 2, 880); (887, 1, 1, 886);
    (891, 3, 1, 1021); (940, 1, 1, 902); (941, 3, 1, 904); (945, 17, 1,
    913); (962, 1, 1, 931); (963, 9, 1, 931); (972, 1, 1, 908); (973, 2, 1,
    910); (976, 1, 1, 914); (977, 1, 1, 920); (981, 1, 1, 934); (982, 1, 1,
    928); (983, 1, 1, 975); (985, 12, 2, 984); (1008, 1, 1, 922); (1009, 1,
    1, 929); (1010, 1, 1, 1017); (1011, 1, 1, 895); (1013, 1, 1, 917);
    (1016, 1, 1, 1015); (1019, 1, 1, 1018); (1072, 32, 1, 1040); (1104, 16,
    1, 1024); (1121, 17, 2, 1120); (1163, 27, 2, 1162); (1218, 7, 2, 1217);
    (1231, 1, 1, 1216); (1233, 48, 2, 1232); (1377, 38, 1, 1329); (4304, 43,
    1, 7312); (4349, 3, 1, 7357); (5112, 6, 1, 5104); (7296, 1, 1, 1042);
    (7297, 1, 1, 1044); (7298, 1, 1, 1054); (7299, 2, 1, 1057); (7301, 1, 1,
    1058); (7302, 1, 1, 1066); (7303, 1, 1, 1122); (7304, 1, 1, 42570);
    (7545, 1, 1, 42877); (7549, 1, 1, 11363); (7566, 1, 1, 42950); (7681,
    75, 2, 7680); (7835, 1, 1, 7776); (7841, 48, 2, 7840); (7936, 8, 1,
    7944); (7952, 6, 1, 7960); (7968, 8, 1, 7976); (7984, 8, 1, 7992);
    (8000, 6, 1, 8008); (8017, 4, 2, 8025); (8032, 8, 1, 8040); (8048, 2, 1,
    8122); (8050, 4, 1, 8136); (8054, 2, 1, 8154); (8056, 2, 1, 8184);
    (8058, 2, 1, 8170); (8060, 2, 1, 8186); (8112, 2, 1, 8120); (8126, 1, 1,
    921); (8144, 2, 1, 8152); (8160, 2, 1, 8168); (8165, 1, 1, 8172); (8526,
    1, 1, 8498); (8560, 16, 1, 8544); (8580, 1, 1, 8579); (9424, 26, 1,
    9398); (11312, 48, 1, 11264); (11361, 1, 1, 11360); (11365, 1, 1, 570);
    (11366, 1, 1, 574); (11368, 3, 2, 11367); (11379, 1, 1, 11378); (11382,
    1, 1, 11381); (11393, 50, 2, 11392); (11500, 2, 2, 11499); (11507, 1, 1,
    11506); (11520, 38, 1, 4256); (11559, 1, 1, 4295); (11565, 1, 1, 4301);
    (42561, 23, 2, 42560); (42625, 14, 2, 42624); (42787, 7, 2, 42786);
    (42803, 31, 2, 42802); (42874, 2, 2, 42873); (42879, 5, 2, 42878);
    (42892, 1, 1, 42891); (42897, 2, 2, 42896); (42900, 1, 1, 42948);
    (42903, 10, 2, 42902); (42933, 8, 2, 42932); (42952, 2, 2, 42951);
    (42961, 1, 1, 42960); (42967, 2, 2, 42966); (42998, 1, 1, 42997);
    (43859, 1, 1, 42931); (43888, 80, 1, 5024); (65345, 26, 1, 65313);
    (66600, 40, 1, 66560); (66776, 36, 1, 66736); (66967, 11, 1, 66928);
    (66979, 15, 1, 66940); (66995, 7, 1, 66956); (67003, 2, 1, 66964);
    (68800, 51, 1, 68736); (71872, 32, 1, 71840); (93792, 32, 1, 93760);
    (125218, 34, 1, 125184)
  ]%N.

Definition upper_multi : list (N * text) :=
  [
    (223, [83; 83]); (329, [700; 78]); (496, [74; 780]); (912, [921; 776;
    769]); (944, [933; 776; 769]); (1415, [1333; 1362]); (7830, [72; 817]);
    (7831, [84; 776]); (7832, [87; 778]); (7833, [89; 778]); (7834, [65;
    702]); (8016, [933; 787]); (8018, [933; 787; 768]); (8020, [933; 787;
    769]); (8022, [933; 787; 834]); (8064, [7944; 921]); (8065, [7945;
    921]); (8066, [7946; 921]); (8067, [7947; 921]); (8068, [7948; 921]);
    (8069, [7949; 921]); (8070, [7950; 921]); (8071, [7951; 921]); (8072,
    [7944; 921]); (8073, [7945; 921]); (8074, [7946; 921]); (8075, [7947;
    921]); (8076, [7948; 921]); (8077, [7949; 921]); (8078, [7950; 921]);
    (8079, [7951; 921]); (8080, [7976; 921]); (8081, [7977; 921]); (8082,
    [7978; 921]); (8083, [7979; 921]); (8084, [7980; 921]); (8085, [7981;
    921]); (8086, [7982; 921]); (8087, [7983; 921]); (8088, [7976; 921]);
    (8089, [7977; 921]); (8090, [7978; 921]); (8091, [7979; 921]); (8092,
    [7980; 921]); (8093, [7981; 921]); (8094, [7982; 921]); (8095, [7983;
    921]); (8096, [8040; 921]); (8097, [8041; 921]); (8098, [8042; 921]);
    (8099, [8043; 921]); (8100, [8044; 921]); (8101, [8045; 921]); (8102,
    [8046; 921]); (8103, [8047; 921]); (8104, [8040; 921]); (8105, [8041;
    921]); (8106, [8042; 921]); (8107, [8043; 921]); (8108, [8044; 921]);
    (8109, [8045; 921]); (8110, [8046; 921]); (8111, [8047; 921]); (8114,
    [8122; 921]); (8115, [913; 921]); (8116, [902; 921]); (8118, [913;
    834]); (8119, [913; 834; 921]); (8124, [913; 921]); (8130, [8138; 921]);
    (8131, [919; 921]); (8132, [905; 921]); (8134, [919; 834]); (8135, [919;
    834; 921]); (8140, [919; 921]); (8146, [921; 776; 768]); (8147, [921;
    776; 769]); (8150, [921; 834]); (8151, [921; 776; 834]); (8162, [933;
    776; 768]); (8163, [933; 776; 769]); (8164, [929; 787]); (8166, [933;
    834]); (8167, [933; 776; 834]); (8178, [8186; 921]); (8179, [937; 921]);
    (8180, [911; 921]); (8182, [937; 834]); (8183, [937; 834; 921]); (8188,
    [937; 921]); (64256, [70; 70]); (64257, [70; 73]); (64258, [70; 76]);
    (64259, [70; 70; 73]); (64260, [70; 70; 76]); (64261, [83; 84]); (64262,
    [83; 84]); (64275, [1348; 1350]); (64276, [1348; 1333]); (64277, [1348;
    1339]); (64278, [1358; 1350]); (64279, [1348; 1341])
  ]%N.

(** [Py_UNICODE_ISSPACE] *)
Definition space_ranges : list (N * N) :=
  [
    (9, 13); (28, 32); (133, 133); (160, 160); (5760, 5760); (8192, 8202);
    (8232, 8233); (8239, 8239); (8287, 8287); (12288, 12288)
  ]%N.

(** [_PyUnicode_IsCaseIgnorable] *)
Definition case_ignorable_ranges : list (N * N) :=
  [
    (39, 39); (46, 46); (58, 58); (94, 94); (96, 96); (168, 168); (173,
    173); (175, 175); (180, 180); (183, 184); (688, 879); (884, 885); (890,
    890); (900, 901); (903, 903); (1155, 1161); (1369, 1369); (1375, 1375);
    (1425, 1469); (1471, 1471); (1473, 1474); (1476, 1477); (1479, 1479);
    (1524, 1524); (1536, 1541); (1552, 1562); (1564, 1564); (1600, 1600);
    (1611, 1631); (1648, 1648); (1750, 1757); (1759, 1768); (1770, 1773);
    (1807, 1807); (1809, 1809); (1840, 1866); (1958, 1968); (2027, 2037);
    (2042, 2042); (2045, 2045); (2070, 2093); (2137, 2139); (2184, 2184);
    (2192, 2193); (2200, 2207); (2249, 2306); (2362, 2362); (2364, 2364);
    (2369, 2376); (2381, 2381); (2385, 2391); (2402, 2403); (2417, 2417);
    (2433, 2433); (2492, 2492); (2497, 2500); (2509, 2509); (2530, 2531);
    (2558, 2558); (2561, 2562); (2620, 2620); (2625, 2626); (2631, 2632);
    (2635, 2637); (2641, 2641); (2672, 2673); (2677, 2677); (2689, 2690);
    (2748, 2748); (2753, 2757); (2759, 2760); (2765, 2765); (2786, 2787);
    (2810, 2815); (2817, 2817); (2876, 2876); (2879, 2879); (2881, 2884);
    (2893, 2893); (2901, 2902); (2914, 2915); (2946, 2946); (3008, 3008);
    (3021, 3021); (3072, 3072); (3076, 3076); (3132, 3132); (3134, 3136);
    (3142, 3144); (3146, 3149); (3157, 3158); (3170, 3171); (3201, 3201);
    (3260, 3260); (3263, 3263); (3270, 3270); (3276, 3277); (3298, 3299);
    (3328, 3329); (3387, 3388); (3393, 3396); (3405, 3405); (3426, 3427);
    (3457, 3457); (3530, 3530); (3538, 3540); (3542, 3542); (3633, 3633);
    (3636, 3642); (3654, 3662); (3761, 3761); (3764, 3772); (3782, 3782);
    (3784, 3789); (3864, 3865); (3893, 3893); (3895, 3895); (3897, 3897);
    (3953, 3966); (3968, 3972); (3974, 3975); (3981, 3991); (3993, 4028);
    (4038, 4038); (4141, 4144); (4146, 4151); (4153, 4154); (4157, 4158);
    (4184, 4185); (4190, 4192); (4209, 4212); (4226, 4226); (4229, 4230);
    (4237, 4237); (4253, 4253); (4348, 4348); (4957, 4959); (5906, 5908);
    (5938, 5939); (5970, 5971); (6002, 6003); (6068, 6069); (6071, 6077);
    (6086, 6086); (6089, 6099); (6103, 6103); (6109, 6109); (6155, 6159);
    (6211, 6211); (6277, 6278); (6313, 6313); (6432, 6434); (6439, 6440);
    (6450, 6450); (6457, 6459); (6679, 6680); (6683, 6683); (6742, 6742);
    (6744, 6750); (6752, 6752); (6754, 6754); (6757, 6764); (6771, 6780);
    (6783, 6783); (6823, 6823); (6832, 6862); (6912, 6915); (6964, 6964);
    (6966, 6970); (6972, 6972); (6978, 6978); (7019, 7027); (7040, 7041);
    (7074, 7077); (7080, 7081); (7083, 7085); (7142, 7142); (7144, 7145);
    (7149, 7149); (7151, 7153); (7212, 7219); (7222, 7223); (7288, 7293);
    (7376, 7378); (7380, 7392); (7394, 7400); (7405, 7405); (7412, 7412);
    (7416, 7417); (7468, 7530); (7544, 7544); (7579, 7679); (8125, 8125);
    (8127, 8129); (8141, 8143); (8157, 8159); (8173, 8175); (8189, 8190);
    (8203, 8207); (8216, 8217); (8228, 8228); (8231, 8231); (8234, 8238);
    (8288, 8292); (8294, 8303); (8305, 8305); (8319, 8319); (8336, 8348);
    (8400, 8432); (11388, 11389); (11503, 11505); (11631, 11631); (11647,
    11647); (11744, 11775); (11823, 11823); (12293, 12293); (12330, 12333);
    (12337, 12341); (12347, 12347); (12441, 12446); (12540, 12542); (40981,
    40981); (42232, 42237); (42508, 42508); (42607, 42610); (42612, 42621);
    (42623, 42623); (42652, 42655); (42736, 42737); (42752, 42785); (42864,
    42864); (42888, 42890); (42994, 42996); (43000, 43001); (43010, 43010);
    (43014, 43014); (43019, 43019); (43045, 43046); (43052, 43052); (43204,
    43205); (43232, 43249); (43263, 43263); (43302, 43309); (43335, 43345);
    (43392, 43394); (43443, 43443); (43446, 43449); (43452, 43453); (43471,
    43471); (43493, 43494); (43561, 43566); (43569, 43570); (43573, 43574);
    (43587, 43587); (43596, 43596); (43632, 43632); (43644, 43644); (43696,
    43696); (43698, 43700); (43703, 43704); (43710, 43711); (43713, 43713);
    (43741, 43741); (43756, 43757); (43763, 43764); (43766, 43766); (43867,
    43871); (43881, 43883); (44005, 44005); (44008, 44008); (44013, 44013);
    (64286, 64286); (64434, 64450); (65024, 65039); (65043, 65043); (65056,
    65071); (65106, 65106); (65109, 65109); (65279, 65279); (65287, 65287);
    (65294, 65294); (65306, 65306); (65342, 65342); (65344, 65344); (65392,
    65392); (65438, 65439); (65507, 65507); (65529, 65531); (66045, 66045);
    (66272, 66272); (66422, 66426); (67456, 67461); (67463, 67504); (67506,
    67514); (68097, 68099); (68101, 68102); (68108, 68111); (68152, 68154);
    (68159, 68159); (68325, 68326); (68900, 68903); (69291, 69292); (69446,
    69456); (69506, 69509); (69633, 69633); (69688, 69702); (69744, 69744);
    (69747, 69748); (69759, 69761); (69811, 69814); (69817, 69818); (69821,
    69821); (69826, 69826); (69837, 69837); (69888, 69890); (69927, 69931);
    (69933, 69940); (70003, 70003); (70016, 70017); (70070, 70078); (70089,
    70092); (70095, 70095); (70191, 70193); (70196, 70196); (70198, 70199);
    (70206, 70206); (70367, 70367); (70371, 70378); (70400, 70401); (70459,
    70460); (70464, 70464); (70502, 70508); (70512, 70516); (70712, 70719);
    (70722, 70724); (70726, 70726); (70750, 70750); (70835, 70840); (70842,
    70842); (70847, 70848); (70850, 70851); (71090, 71093); (71100, 71101);
    (71103, 71104); (71132, 71133); (71219, 71226); (71229, 71229); (71231,
    71232); (71339, 71339); (71341, 71341); (71344, 71349); (71351, 71351);
    (71453, 71455); (71458, 71461); (71463, 71467); (71727, 71735); (71737,
    71738); (71995, 71996); (71998, 71998); (72003, 72003); (72148, 72151);
    (72154, 72155); (72160, 72160); (72193, 72202); (72243, 72248); (72251,
    72254); (72263, 72263); (72273, 72278); (72281, 72283); (72330, 72342);
    (72344, 72345); (72752, 72758); (72760, 72765); (72767, 72767); (72850,
    72871); (72874, 72880); (72882, 72883); (72885, 72886); (73009, 73014);
    (73018, 73018); (73020, 73021); (73023, 73029); (73031, 73031); (73104,
    73105); (73109, 73109); (73111, 73111); (73459, 73460); (78896, 78904);
    (92912, 92916); (92976, 92982); (92992, 92995); (94031, 94031); (94095,
    94111); (94176, 94177); (94179, 94180); (110576, 110579); (110581,
    110587); (110589, 110590); (113821, 113822); (113824, 113827); (118528,
    118573); (118576, 118598); (119143, 119145); (119155, 119170); (119173,
    119179); (119210, 119213); (119362, 119364); (121344, 121398); (121403,
    121452); (121461, 121461); (121476, 121476); (121499, 121503); (121505,
    121519); (122880, 122886); (122888, 122904); (122907, 122913); (122915,
    122916); (122918, 122922); (123184, 123197); (123566, 123566); (123628,
    123631); (125136, 125142); (125252, 125259); (127995, 127999); (917505,
    917505); (917536, 917631); (917760, 917999)
  ]%N.

(** [_PyUnicode_IsCased], on the characters that are not case-ignorable
    (it is consulted on no others). *)
Definition cased_ranges : list (N * N) :=
  [
    (65, 90); (97, 122); (170, 170); (181, 181); (186, 186); (192, 214);
    (216, 246); (248, 442); (444, 447); (452, 659); (661, 687); (880, 883);
    (886, 887); (891, 893); (895, 895); (902, 902); (904, 906); (908, 908);
    (910, 929); (931, 1013); (1015, 1153); (1162, 1327); (1329, 1366);
    (1376, 1416); (4256, 4293); (4295, 4295); (4301, 4301); (4304, 4346);
    (4349, 4351); (5024, 5109); (5112, 5117); (7296, 7304); (7312, 7354);
    (7357, 7359); (7424, 7467); (7531, 7543); (7545, 7578); (7680, 7957);
    (7960, 7965); (7968, 8005); (8008, 8013); (8016, 8023); (8025, 8025);
    (8027, 8027); (8029, 8029); (8031, 8061); (8064, 8116); (8118, 8124);
    (8126, 8126); (8130, 8132); (8134, 8140); (8144, 8147); (8150, 8155);
    (8160, 8172); (8178, 8180); (8182, 8188); (8450, 8450); (8455, 8455);
    (8458, 8467); (8469, 8469); (8473, 8477); (8484, 8484); (8486, 8486);
    (8488, 8488); (8490, 8493); (8495, 8500); (8505, 8505); (8508, 8511);
    (8517, 8521); (8526, 8526); (8544, 8575); (8579, 8580); (9398, 9449);
    (11264, 11387); (11390, 11492); (11499, 11502); (11506, 11507); (11520,
    11557); (11559, 11559); (11565, 11565); (42560, 42605); (42624, 42651);
    (42786, 42863); (42865, 42887); (42891, 42894); (42896, 42954); (42960,
    42961); (42963, 42963); (42965, 42969); (42997, 42998); (43002, 43002);
    (43824, 43866); (43872, 43880); (43888, 43967); (64256, 64262); (64275,
    64279); (65313, 65338); (65345, 65370); (66560, 66639); (66736, 66771);
    (66776, 66811); (66928, 66938); (66940, 66954); (66956, 66962); (66964,
    66965); (66967, 66977); (66979, 66993); (66995, 67001); (67003, 67004);
    (68736, 68786); (68800, 68850); (71840, 71903); (93760, 93823); (119808,
    119892); (119894, 119964); (119966, 119967); (119970, 119970); (119973,
    119974); (119977, 119980); (119982, 119993); (119995, 119995); (119997,
    120003); (120005, 120069); (120071, 120074); (120077, 120084); (120086,
    120092); (120094, 120121); (120123, 120126); (120128, 120132); (120134,
    120134); (120138, 120144); (120146, 120485); (120488, 120512); (120514,
    120538); (120540, 120570); (120572, 120596); (120598, 120628); (120630,
    120654); (120656, 120686); (120688, 120712); (120714, 120744); (120746,
    120770); (120772, 120779); (122624, 122633); (122635, 122654); (125184,
    125251); (127280, 127305); (127312, 127337); (127344, 127369)
  ]%N.

Fixpoint run (first step image : N) (count : nat) : list (N * text) :=
  match count with
  | O => []
  | S k => (first, [image]) :: run (first + step)%N step (image + step)%N k
  end.

Definition expand (rules : list (N * N * N * N)) : list (N * text) :=
  flat_map (fun '(first, count, step, image) =>
              run first step image (N.to_nat count)) rules.

Definition lower_table : list (N * text) :=
  Eval vm_compute in expand lower_rules ++ lower_multi.

Definition upper_table : list (N * text) :=
  Eval vm_compute in expand upper_rules ++ upper_multi.

Fixpoint assoc (c : N) (table : list (N * text)) : option text :=
  match table with
  | [] => None
  | (k, image) :: rest => if (k =? c)%N then Some image else assoc c rest
  end.

Definition in_ranges (c : N) (ranges : list (N * N)) : bool :=
  existsb (fun '(lo, hi) => (lo <=? c)%N && (c <=? hi)%N) ranges.

(** [_PyUnicode_ToLowerFull] and [_PyUnicode_ToUpperFull] *)
Definition to_lower_full (c : N) : text := default [c] (assoc c lower_table).
Definition to_upper_full (c : N) : text := default [c] (assoc c upper_table).

(** [c.isspace()] *)
Definition is_space (c : N) : bool := in_ranges c space_ranges.

Definition is_case_ignorable (c : N) : bool := in_ranges c case_ignorable_ranges.
Definition is_cased (c : N) : bool := in_ranges c cased_ranges.

(** *** [str.lower] *)

Fixpoint skip_case_ignorable (s : text) : text :=
  match s with
  | [] => []
  | c :: rest => if is_case_ignorable c then skip_case_ignorable rest else s
  end.

(** [handle_capital_sigma]: a capital sigma is final when a cased character
    comes before it and none after it, case-ignorable ones skipped.
    [before] is the text to the left, nearest character first. *)
Definition final_sigma (before after : text) : bool :=
  match skip_case_ignorable before with
  | [] => false
  | c :: _ =>
      is_cased c
      && match skip_case_ignorable after with
         | [] => true
         | d :: _ => negb (is_cased d)
         end
  end.

(** [lower_ucs4]: the image of [c] between [before] and [after]. *)
Definition lower_at (before : text) (c : N) (after : text) : text :=
  if (c =? 931)%N then [if final_sigma before after then 962%N else 963%N]
  else to_lower_full c.

Fixpoint lower_from (before s : text) : text :=
  match s with
  | [] => []
  | c :: rest => lower_at before c rest ++ lower_from (c :: before) rest
  end.

(** [s.lower()] *)
Definition lower (s : text) : text := lower_from [] s.

(** [s.upper()] *)
Definition upper (s : text) : text := flat_map to_upper_full s.

(** *** [str.strip] and [in] *)

(** [s.lstrip()] *)
Fixpoint lstrip (s : text) : text :=
  match s with
  | [] => []
  | c :: s' => if is_space c then lstrip s' else s
  end.

(** [s.rstrip()] *)
Fixpoint rstrip (s : text) : text :=
  match s with
  | [] => []
  | c :: s' =>
      match rstrip s' with
      | [] => if is_space c then [] else [c]
      | r => c :: r
      end
  end.

(** [s.strip()] *)
Definition strip (s : text) : text := rstrip (lstrip s).

(** [s.startswith(p)] *)
Fixpoint startswith (s p : text) {struct p} : bool :=
  match p, s with
  | [], _ => true
  | _ :: _, [] => false
  | a :: p', b :: s' => (a =? b)%N && startswith s' p'
  end.

(** [needle in hay] *)
Fixpoint contains (needle hay : text) : bool :=
  startswith hay needle
  || match hay with
     | [] => false
     | _ :: hay' => contains needle hay'
     end.

(** [bool(s)]: a [str] is truthy when it is not empty. *)
Definition nonempty (s : text) : bool :=
  match s with
  | [] => false
  | _ :: _ => true
  end.

(** The same for a value of the process environment. *)
Definition truthy (s : string) : bool :=
  match s with
  | EmptyString => false
  | String _ _ => true
  end.

(** *** Vocabulary of the properties *)

(** The whitespace characters: the ASCII controls TAB to CR and FS to US,
    the space, NEL, the no-break space, the Ogham space mark, the spaces
    U+2000 to U+200A, the line and paragraph separators, the narrow
    no-break space, the medium mathematical space and the ideographic
    space. *)
Definition whitespace : list N :=
  [ 9; 10; 11; 12; 13; 28; 29; 30; 31; 32; 133; 160; 5760;
    8192; 8193; 8194; 8195; 8196; 8197; 8198; 8199; 8200; 8201; 8202;
    8232; 8233; 8239; 8287; 12288 ]%N.

Definition is_whitespace (c : N) : bool := existsb (N.eqb c) whitespace.

(** Every character is whitespace (true of the empty string too). *)
Fixpoint all_space (s : text) : bool :=
  match s with
  | [] => true
  | c :: s' => is_whitespace c && all_space s'
  end.

(** [sub] occurs in [s] as a contiguous run of characters. *)
Definition occurs_in (sub s : text) : Prop :=
  exists pre post, s = pre ++ sub ++ post.

(** The characters that are the lowercase letter [x] in one letter case or
    the other: [x] itself and its capital, and for k also the Kelvin sign
    U+212A, a capital letter whose small letter is k.  A character that is
    no small letter has no other form than itself. *)
Definition case_forms (x : N) : list N :=
  if (97 <=? x)%N && (x <=? 122)%N then
    x :: (x - 32)%N :: (if (x =? 107)%N then [8490%N] else [])
  else [x].

(** [u] spells [w] up to letter case. *)
Definition same_letters (u w : text) : Prop :=
  Forall2 (fun c x => In c (case_forms x)) u w.

(** The two forms of a capital letter [d]: [d] and its small letter. *)
Definition marker_forms (d : N) : list N := [d; (d + 32)%N].

(** The forms of a final Y: Y, y, and U+1E99 (y with ring above), whose
    capital is Y followed by the combining ring. *)
Definition final_y_forms : list N := [89%N; 121%N; 7833%N].

(** *** Devices of the proofs *)

(** The characters a vocabulary term is made of: ASCII without the
    capital letters. *)
Definition vocab_char (x : N) : bool :=
  (x <? 128)%N && negb ((65 <=? x)%N && (x <=? 90)%N).

Definition is_case_form (c x : N) : bool := existsb (N.eqb c) (case_forms x).

(** U+0130, whose lowercase is i followed by the combining dot. *)
Definition is_dotted_capital_i (c x : N) : bool := (c =? 304)%N && (x =? 105)%N.

Definition marker_letter (d : N) : bool := existsb (N.eqb d) (txt "EMERGENCY").

Definition is_marker_form (c d : N) : bool := existsb (N.eqb c) (marker_forms d).

Definition is_ringed_y (c d : N) : bool := (c =? 7833)%N && (d =? 89)%N.

(** A character with its image is in order for the search of a word made
    of [letter]s: an image that starts with a letter is this letter alone
    and the character is a [form] of it, or the character is a [long_form]
    of it and what follows the letter in the image is no letter. *)
Definition part_ok (letter : N -> bool) (form long_form : N -> N -> bool)
    (p : N * text) : bool :=
  match snd p with
  | [] => false
  | e0 :: rest =>
      implb (letter e0)
        (match rest with
         | [] => form (fst p) e0
         | x :: _ => long_form (fst p) e0 && negb (letter x)
         end)
  end.

(** No character of the image after the first is [h]. *)
Definition tail_clear (h : N) (p : N * text) : bool :=
  forallb (fun x => negb (x =? h)%N) (tail (snd p)).

(** The tail of the image holds no vocabulary character. *)
Definition tail_foreign (p : N * text) : bool :=
  forallb (fun x => negb (vocab_char x)) (tail (snd p)).

(** [u] spells the word [m]: character by character in a [form] of its
    letter, the last one possibly in a [long_form]. *)
Inductive spells (form long_form : N -> N -> bool) : text -> text -> Prop :=
  | spells_nil : spells form long_form [] []
  | spells_long c d :
      long_form c d = true -> spells form long_form [c] [d]
  | spells_cons c d u m :
      form c d = true -> spells form long_form u m ->
      spells form long_form (c :: u) (d :: m).

Definition text_eqb (a b : text) : bool :=
  bool_decide (a = b).

Definition ascii_range : list N := map N.of_nat (seq 0 128).

(** The characters of a range, one by one. *)
Definition range_list (r : N * N) : list N :=
  map (fun k => (fst r + N.of_nat k)%N) (seq 0 (N.to_nat (snd r + 1 - fst r))).

(** Each character of a text with its image in [lower]. *)
Fixpoint lower_parts (before s : text) : list (N * text) :=
  match s with
  | [] => []
  | c :: rest => (c, lower_at before c rest) :: lower_parts (c :: before) rest
  end.

Definition upper_parts (s : text) : list (N * text) :=
  map (fun c => (c, to_upper_full c)) s.

End Str.

(** ** Stage 1: the keyword classifier *)

Definition isinstance_str (v : PyVal) : bool :=
  match v with
  | VStr _ => true
  | _ => false
  end.

(** [v.lower()]: only [str] has the method. *)
Definition py_lower (v : PyVal) : result text :=
  match v with
  | VStr s => Ok (Str.lower s)
  | _ => Raise AttributeError
  end.

(** [v.strip()] *)
Definition py_strip (v : PyVal) : result text :=
  match v with
  | VStr s => Ok (Str.strip s)
  | _ => Raise AttributeError
  end.

Definition emergency_words : list text :=
  map Str.txt
    [ "trapped"; "unconscious"; "fire"; "injured"; "can't breathe";
      "emergency"; "urgent"; "help"; "attack"; "bleeding" ].

(** [any(p(x) for x in l)] *)
Definition any {A} (p : A -> bool) (l : list A) : bool := existsb p l.

Definition is_emergency_keyword (text : PyVal) : result bool :=
  if negb (isinstance_str text) then Ok false
  else
    text_lower <~ py_lower text ;;
    Ok (any (fun word => Str.contains word text_lower) emergency_words).


(** ** The feature layer and the outside world *)

(** Field names of the layer. *)
Definition NOTES_FIELD : string := "other_info_provided".
Definition OBJECTID_FIELD : string := "objectid".
Definition FLAG_FIELD : string := "ai_flag".
Definition FEATURE_LAYER_URL : string :=
  "https://services.arcgis.com/pGfbNJoYypmNq86F/arcgis/rest/services/survey123_e94edce759494dbc89d3cc0d4368b68a_results/FeatureServer/0".

(** A feature: [feature.attributes] is a dict from field name to value. *)
Record Feature : Type := { attributes : gmap string PyVal }.

(** The hosted layer: its schema and its rows. *)
Record Layer : Type := { fields : list string; rows : list Feature }.

(** The JSON answer of [edit_features]: [result['updateResults']] is a list
    of dicts with the keys [objectId], [success] and, on failure, [error]. *)
Record ErrorInfo : Type := { code : Z; description : string }.
Record UpdateResult : Type :=
  { objectId : option Z; success : option bool; error : option ErrorInfo }.
Record EditResponse : Type := { updateResults : option (list UpdateResult) }.

(** A chat completion as the client library hands it back. *)
Record Message : Type := { content : PyVal }.
Record Choice : Type := { message : Message }.
Record ChatCompletion : Type := { choices : list Choice }.

(** What [gis.properties.portalName] and [gis.users.me] read after a
    successful login. *)
Record Portal : Type := { portalName : string; me : option string }.

(** Everything the script reads from its surroundings: the process
    environment, whether the optional client library is installed, and how
    the two remote services answer. *)
Record Env : Type := {
  ARCGIS_PORTAL_URL : string;
  ARCGIS_CLIENT_ID : option string;
  ARCGIS_CLIENT_SECRET : option string;
  ARCGIS_USERNAME : option string;
  ARCGIS_PASSWORD : option string;
  OPENAI_API_KEY : option string;
  openai_installed : bool;
  (** [OpenAI(api_key=...)] followed by [client.chat.completions.create]:
      the answer to the n-th request, for the given user text. *)
  chat_completions_create : nat -> PyVal -> result ChatCompletion;
  (** [GIS(...)] and the reads that follow it. *)
  gis_login : result Portal;
  (** [FeatureLayer(url, gis)] and [layer.properties]: the layer's name. *)
  layer_open : result (option string);
  (** Transport or permission faults of the three layer operations. *)
  add_to_definition_fault : option exn;
  query_fault : option exn;
  (** [layer.edit_features(updates=...)]: the service decides what it
      applies and what it answers. *)
  edit_features_service : Layer -> list Feature -> result EditResponse * Layer
}.

(** One argument interpolated into a printed line. *)
Inductive Arg : Type :=
  | AStr (s : string)
  | ANat (n : nat)
  | AVal (v : PyVal)
  | AEnv (o : option string)
  | AExn (e : exn)
  | ANames (l : list string)
  | AResponse (r : EditResponse)
  | AErrors (l : list (option ErrorInfo)).

(** A printed line: the format string with [{}] for each interpolated
    value, and the values. *)
Inductive Line : Type := Print (template : string) (args : list Arg).

(** A call of one of the two classifiers, as a test spy would record it. *)
Inductive Invocation : Type :=
  | CalledKeyword (text : PyVal)
  | CalledOpenAI (text : PyVal).

(** The mutable world: standard output, the inference requests sent so far,
    the classifier calls made so far, the hosted layer, and the batches
    submitted to it. *)
Record World : Type := {
  stdout : list Line;
  requests : list PyVal;
  invocations : list Invocation;
  layer : Layer;
  edits : list (list Feature)
}.

Definition with_stdout (w : World) (o : list Line) : World :=
  {| stdout := o; requests := requests w; invocations := invocations w;
     layer := layer w; edits := edits w |}.
Definition with_requests (w : World) (r : list PyVal) : World :=
  {| stdout := stdout w; requests := r; invocations := invocations w;
     layer := layer w; edits := edits w |}.
Definition with_invocations (w : World) (i : list Invocation) : World :=
  {| stdout := stdout w; requests := requests w; invocations := i;
     layer := layer w; edits := edits w |}.
Definition with_layer (w : World) (l : Layer) : World :=
  {| stdout := stdout w; requests := requests w; invocations := invocations w;
     layer := l; edits := edits w |}.
Definition with_edits (w : World) (e : list (list Feature)) : World :=
  {| stdout := stdout w; requests := requests w; invocations := invocations w;
     layer := layer w; edits := e |}.

(** ** The monad of the script: state that survives exceptions *)

Definition M (A : Type) : Type := World -> result A * World.

Definition ret {A} (a : A) : M A := fun w => (Ok a, w).

Definition bind {A B} (m : M A) (k : A -> M B) : M B :=
  fun w =>
    match m w with
    | (Ok a, w') => k a w'
    | (Raise e, w') => (Raise e, w')
    end.

Definition raise {A} (e : exn) : M A := fun w => (Raise e, w).

Definition lift {A} (r : result A) : M A := fun w => (r, w).

(** [try: body except Exception as e: handler(e)]; a handler for a narrower
    class re-raises what it does not catch. *)
Definition try_except {A} (body : M A) (handler : exn -> M A) : M A :=
  fun w =>
    match body w with
    | (Ok a, w') => (Ok a, w')
    | (Raise e, w') => handler e w'
    end.

Notation "x <- m ;; k" := (bind m (fun x => k))
  (at level 100, m at next level, right associativity).
Notation "m ;;; k" := (bind m (fun _ => k))
  (at level 100, right associativity).

Definition print (template : string) (args : list Arg) : M unit :=
  fun w => (Ok tt, with_stdout w (stdout w ++ [Print template args])).

Definition spy (i : Invocation) : M unit :=
  fun w => (Ok tt, with_invocations w (invocations w ++ [i])).

(** ** Stage 2: the OpenAI classifier *)

(** [from openai import OpenAI] *)
Definition import_openai (env : Env) : M unit :=
  if openai_installed env then ret tt else raise ImportError.

(** [bool(os.getenv(name))]: unset and empty are both falsy. *)
Definition getenv_truthy (v : option string) : bool :=
  match v with
  | Some s => Str.truthy s
  | None => false
  end.

(** The request: recorded, then answered by the service. *)
Definition create (env : Env) (text : PyVal) : M ChatCompletion :=
  fun w =>
    (chat_completions_create env (length (requests w)) text,
     with_requests w (requests w ++ [text])).

(** [l[0]] *)
Definition first {A} (l : list A) : result A :=
  match l with
  | x :: _ => Ok x
  | [] => Raise IndexError
  end.

Definition EMERGENCY : text := Str.txt "EMERGENCY".

(** [response.choices[0].message.content.strip().upper()] *)
Definition response_label (response : ChatCompletion) : result text :=
  choice <~ first (choices response) ;;
  stripped <~ py_strip (content (message choice)) ;;
  Ok (Str.upper stripped).

Definition is_emergency_openai (env : Env) (text : PyVal) : M bool :=
  (* if not isinstance(text, str) or not text.strip(): return False *)
  blank <- (if negb (isinstance_str text) then ret true
            else stripped <- lift (py_strip text) ;;
                 ret (negb (Str.nonempty stripped))) ;;
  if blank then ret false
  else
    imported <- try_except
      (import_openai env ;;; ret true)
      (fun e =>
         match e with
         | ImportError =>
             print "Error: The 'openai' library is required for this function." [] ;;;
             print "Please run 'pip install openai' to install it." [] ;;;
             ret false
         | _ => raise e
         end) ;;
    if negb imported then ret false
    else if negb (getenv_truthy (OPENAI_API_KEY env)) then
      print "Error: OPENAI_API_KEY environment variable not set. Please add it to your .env file." [] ;;;
      ret false
    else
      try_except
        (response <- create env text ;;
         result <- lift (response_label response) ;;
         ret (Str.contains EMERGENCY result))
        (fun e =>
           print "An error occurred while calling the OpenAI API: {}" [AExn e] ;;;
           ret false).

(** ** The layer operations *)

(** [d.get(key)]: the value, or [None] when the key is absent. *)
Definition get (d : gmap string PyVal) (key : string) : PyVal :=
  default VNone (d !! key).

(** The row filter of the query, [ai_flag IS NULL OR ai_flag = '']. *)
Definition unprocessed (f : Feature) : bool :=
  match attributes f !! FLAG_FIELD with
  | None => true
  | Some VNone => true
  | Some (VStr s) => negb (Str.nonempty s)
  | Some _ => false
  end.

(** [out_fields]: the attributes of the answer are cut down to these. *)
Definition out_fields : list string := [OBJECTID_FIELD; NOTES_FIELD].

Definition select (names : list string) (f : Feature) : Feature :=
  {| attributes :=
       list_to_map (omap (fun k => pair k <$> attributes f !! k) names) |}.

(** [layer.query(where=..., out_fields=..., return_geometry=False).features]:
    fresh local objects decoded from the answer; changing them does not
    touch the hosted rows. *)
Definition layer_query (env : Env) : M (list Feature) :=
  fun w =>
    match query_fault env with
    | Some e => (Raise e, w)
    | None =>
        (Ok (map (select out_fields) (List.filter unprocessed (rows (layer w)))), w)
    end.

(** [layer.manager.add_to_definition({"fields": [...]})] *)
Definition add_to_definition (env : Env) (name : string) : M unit :=
  fun w =>
    match add_to_definition_fault env with
    | Some e => (Raise e, w)
    | None =>
        (Ok tt, with_layer w {| fields := fields (layer w) ++ [name];
                                rows := rows (layer w) |})
    end.

(** [layer.edit_features(updates=updates)] *)
Definition edit_features (env : Env) (updates : list Feature) : M EditResponse :=
  fun w =>
    let '(r, l) := edit_features_service env (layer w) updates in
    (r, with_edits (with_layer w l) (edits w ++ [updates])).

Definition get_fields : M (list string) := fun w => (Ok (fields (layer w)), w).

(** ** The main script *)

(** Truthiness of a list. *)
Definition nonempty {A} (l : list A) : bool :=
  match l with
  | [] => false
  | _ :: _ => true
  end.

(** Truthiness of [r.get('success')]. *)
Definition succeeded (r : UpdateResult) : bool :=
  match success r with
  | Some b => b
  | None => false
  end.

(** The two-stage analysis of one note (loop body, "Multi-Stage Analysis"). *)
Definition multi_stage_analysis (env : Env) (text_to_analyze : PyVal) : M bool :=
  (* Stage 1 *)
  is_emergency <- (spy (CalledKeyword text_to_analyze) ;;;
                   lift (is_emergency_keyword text_to_analyze)) ;;
  (* Stage 2 *)
  if negb is_emergency then
    print "  - No keywords found. Sending to AI for deeper analysis..." [] ;;;
    spy (CalledOpenAI text_to_analyze) ;;;
    is_emergency_openai env text_to_analyze
  else
    print "  - Emergency keyword found. Flagging immediately." [] ;;;
    ret is_emergency.

(** ["911_REVIEW" if is_emergency else "OK"] *)
Definition flag_of (is_emergency : bool) : string :=
  if is_emergency then "911_REVIEW" else "OK".

(** One turn of the loop of step 5: the updated local feature. *)
Definition analyze_feature (env : Env) (feature : Feature) : M Feature :=
  let oid := get (attributes feature) OBJECTID_FIELD in
  let text_to_analyze := get (attributes feature) NOTES_FIELD in
  print "\nProcessing Feature ID: {}" [AVal oid] ;;;
  print "  - Text: '{}'" [AVal text_to_analyze] ;;;
  is_emergency <- multi_stage_analysis env text_to_analyze ;;
  let flag := flag_of is_emergency in
  print "  - Analysis Result: {}" [AStr flag] ;;;
  (* feature.attributes[FLAG_FIELD] = flag *)
  ret {| attributes := <[FLAG_FIELD := VStr (Str.txt flag)]> (attributes feature) |}.

(** Step 5: [for feature in features_to_process: ...; updates.append(feature)] *)
Fixpoint analyze_and_prepare_updates (env : Env)
    (features_to_process updates : list Feature) : M (list Feature) :=
  match features_to_process with
  | [] => ret updates
  | feature :: rest =>
      feature' <- analyze_feature env feature ;;
      analyze_and_prepare_updates env rest (updates ++ [feature'])
  end.

(** [[r.get('error') for r in result.get('updateResults', []) if not r.get('success')]] *)
Definition update_errors (result : EditResponse) : list (option ErrorInfo) :=
  map error
    (List.filter (fun r => negb (succeeded r)) (default [] (updateResults result))).

(** What step 6 prints once the service has answered. *)
Definition report_update_results (result : EditResponse) : M unit :=
  print "Update results: {}" [AResponse result] ;;;
  if nonempty (update_errors result) then
    print "\nErrors occurred during update: {}" [AErrors (update_errors result)]
  else
    print "All features updated successfully in the layer." [].

(** Step 6: apply the updates to the layer. *)
Definition apply_updates (env : Env) (updates : list Feature) : M unit :=
  if nonempty updates then
    print "\nApplying updates for {} feature(s)..." [ANat (length updates)] ;;;
    try_except
      (result <- edit_features env updates ;;
       report_update_results result)
      (fun e => print "Failed to apply updates to the layer. Error: {}" [AExn e])
  else
    print "No features were flagged for update." [].

Definition query_clause : string :=
  FLAG_FIELD +:+ " IS NULL OR " +:+ FLAG_FIELD +:+ " = ''".

(** Steps 4 to 6, after the flag field is known to exist. *)
Definition query_and_process (env : Env) : M unit :=
  print "\nQuerying for new submissions with: {}" [AStr query_clause] ;;;
  queried <- try_except
    (features_to_process <- layer_query env ;;
     print "Found {} new feature(s) to analyze." [ANat (length features_to_process)] ;;;
     ret (Some features_to_process))
    (fun e =>
       print "Failed to query features. Please check your field names. Error: {}" [AExn e] ;;;
       ret None) ;;
  match queried with
  | None => ret tt
  | Some features_to_process =>
      if negb (nonempty features_to_process) then
        print "No new submissions to process. Exiting." []
      else
        updates <- analyze_and_prepare_updates env features_to_process [] ;;
        apply_updates env updates ;;;
        print "\n--- Script finished ---" []
  end.

(** Step 3: make sure the flag field exists. *)
Definition ensure_flag_field (env : Env) : M bool :=
  print "\nChecking for '{}' field..." [AStr FLAG_FIELD] ;;;
  field_names <- get_fields ;;
  print "Detected fields: {}" [ANames field_names] ;;;
  if negb (bool_decide (FLAG_FIELD ∈ field_names)) then
    print "Field '{}' not found. Adding it to the layer..." [AStr FLAG_FIELD] ;;;
    try_except
      (add_to_definition env FLAG_FIELD ;;;
       print "Successfully added '{}' field." [AStr FLAG_FIELD] ;;;
       ret true)
      (fun e =>
         print "Failed to add field. Please check layer permissions. Error: {}" [AExn e] ;;;
         ret false)
  else
    print "Field '{}' already exists." [AStr FLAG_FIELD] ;;;
    ret true.

(** Step 1: connect to ArcGIS. *)
Definition connect (env : Env) : M bool :=
  print "Connecting to ArcGIS..." [] ;;;
  try_except
    ((if getenv_truthy (ARCGIS_CLIENT_ID env) && getenv_truthy (ARCGIS_CLIENT_SECRET env) then
        print "Connecting to {} using Client ID..." [AStr (ARCGIS_PORTAL_URL env)]
      else if getenv_truthy (ARCGIS_USERNAME env) && getenv_truthy (ARCGIS_PASSWORD env) then
        print "Connecting to {} as user '{}'..."
          [AStr (ARCGIS_PORTAL_URL env); AEnv (ARCGIS_USERNAME env)]
      else
        print "Connecting using default profile (GIS('home'))..." []) ;;;
     gis <- lift (gis_login env) ;;
     let username := if me gis is Some u then Some u else ARCGIS_CLIENT_ID env in
     print "Successfully connected to '{}' as '{}'." [AStr (portalName gis); AEnv username] ;;;
     ret true)
    (fun e =>
       print "Failed to connect to ArcGIS. Error: {}" [AExn e] ;;;
       print "Please check your credentials in the .env file or your saved profile." [] ;;;
       ret false).

(** Step 2: access the feature layer. *)
Definition access_layer (env : Env) : M bool :=
  if Str.contains (Str.txt "PASTE_YOUR_FEATURE_LAYER_URL_HERE") (Str.txt FEATURE_LAYER_URL) then
    print "\nERROR: Please update the FEATURE_LAYER_URL in the script configuration." [] ;;;
    ret false
  else
    print "\nAccessing feature layer: {}" [AStr FEATURE_LAYER_URL] ;;;
    try_except
      (name <- lift (layer_open env) ;;
       print "Successfully accessed layer: '{}'" [AEnv name] ;;;
       ret true)
      (fun e =>
         print "Failed to access the feature layer. Please check the URL and permissions. Error: {}" [AExn e] ;;;
         ret false).

Definition main (env : Env) : M unit :=
  print "--- Starting Emergency Analysis Script ---" [] ;;;
  connected <- connect env ;;
  if negb connected then ret tt
  else
    accessed <- access_layer env ;;
    if negb accessed then ret tt
    else
      ready <- ensure_flag_field env ;;
      if negb ready then ret tt
      else query_and_process env.

(** ** Vocabulary of the properties *)

(** The text mentions a term of the vocabulary, in any letter case. *)
Definition mentions_term (s : text) : Prop :=
  exists word u,
    In word emergency_words /\ Str.same_letters u word /\ Str.occurs_in u s.

(** The label mentions the marker, in any letter case: the letters of
    EMERGENC, each as a capital or a small letter, and a final Y in one of
    its forms. *)
Definition mentions_marker (label : text) : Prop :=
  exists body y,
    Str.occurs_in (body ++ [y]) label
    /\ Forall2 (fun c d => In c (Str.marker_forms d)) body (Str.txt "EMERGENC")
    /\ In y Str.final_y_forms.

(** Null, not a string, empty, or nothing but whitespace. *)
Definition is_blank (v : PyVal) : bool :=
  match v with
  | VStr s => Str.all_space s
  | _ => true
  end.

(** What the request for [text] comes to in world [w]: the classification
    read off a well-formed answer, or the exception of a failed transport or
    a malformed answer. *)
Definition backend_outcome (env : Env) (w : World) (text : PyVal) : result bool :=
  response <~ chat_completions_create env (length (requests w)) text ;;
  result <~ response_label response ;;
  Ok (Str.contains EMERGENCY result).

(** The external call of the semantic stage fails: the library is missing,
    the credential is missing, the transport fails or the answer is
    malformed. *)
Definition semantic_call_fails (env : Env) (w : World) (text : PyVal) : Prop :=
  openai_installed env = false
  \/ getenv_truthy (OPENAI_API_KEY env) = false
  \/ exists e, backend_outcome env w text = Raise e.

(** The call goes through and the answer carries no marker. *)
Definition genuine_negative (env : Env) (w : World) (text : PyVal) : Prop :=
  openai_installed env = true
  /\ getenv_truthy (OPENAI_API_KEY env) = true
  /\ backend_outcome env w text = Ok false.

(** The lines by which the semantic stage reports a failed call. *)
Definition failure_line (l : Line) : Prop :=
  l = Print "Error: The 'openai' library is required for this function." []
  \/ l = Print "Error: OPENAI_API_KEY environment variable not set. Please add it to your .env file." []
  \/ exists e, l = Print "An error occurred while calling the OpenAI API: {}" [AExn e].

(** The failure lines, one by one. *)
Definition missing_library_lines : list Line :=
  [ Print "Error: The 'openai' library is required for this function." [];
    Print "Please run 'pip install openai' to install it." [] ].

Definition missing_key_line : Line :=
  Print "Error: OPENAI_API_KEY environment variable not set. Please add it to your .env file." [].

Definition call_error_line (e : exn) : Line :=
  Print "An error occurred while calling the OpenAI API: {}" [AExn e].

Definition no_keywords_line : Line :=
  Print "  - No keywords found. Sending to AI for deeper analysis..." [].

Definition keyword_found_line : Line :=
  Print "  - Emergency keyword found. Flagging immediately." [].

(** The world as the semantic stage finds it after a keyword miss. *)
Definition after_keyword_miss (w : World) (text : PyVal) : World :=
  {| stdout := stdout w ++ [no_keywords_line];
     requests := requests w;
     invocations := invocations w ++ [CalledKeyword text; CalledOpenAI text];
     layer := layer w;
     edits := edits w |}.

(** The world after a keyword hit. *)
Definition after_keyword_hit (w : World) (text : PyVal) : World :=
  {| stdout := stdout w ++ [keyword_found_line];
     requests := requests w;
     invocations := invocations w ++ [CalledKeyword text];
     layer := layer w;
     edits := edits w |}.

(** The world after the two header lines of a record. *)
Definition after_header (w : World) (feature : Feature) : World :=
  with_stdout w
    (stdout w ++ [ Print "\nProcessing Feature ID: {}"
                     [AVal (get (attributes feature) OBJECTID_FIELD)];
                   Print "  - Text: '{}'"
                     [AVal (get (attributes feature) NOTES_FIELD)] ]).

(** A flag, computed from what the pipeline hands back for a record, that
    tells a failed semantic call from a genuine negative. *)
Definition semantic_call_failed_flag (flag : result bool -> bool) : Prop :=
  forall env text w,
    is_emergency_keyword text = Ok false ->
    (semantic_call_fails env w text ->
     flag (fst (multi_stage_analysis env text w)) = true)
    /\ (genuine_negative env w text ->
        flag (fst (multi_stage_analysis env text w)) = false).

(** The batch report in the words of the specification: the write results
    partitioned into successes and failures, both counts, and each failed
    record's identifier with the reason the store gave. *)
Record BatchReport : Type := {
  succeeded_count : nat;
  failed_count : nat;
  failures : list (option Z * option ErrorInfo)
}.

Definition batch_report_spec (result : EditResponse) : BatchReport :=
  let '(ok, failed) := List.partition succeeded (default [] (updateResults result)) in
  {| succeeded_count := length ok;
     failed_count := length failed;
     failures := map (fun r => (objectId r, error r)) failed |}.

(** No row of the layer awaits processing. *)
Definition all_terminal (l : Layer) : Prop :=
  forall f, In f (rows l) -> unprocessed f = false.

(** Everything but standard output and the schema is as before: the rows,
    the batches submitted, the classifier calls and the requests. *)
Definition calm (w w' : World) : Prop :=
  rows (layer w') = rows (layer w)
  /\ edits w' = edits w
  /\ invocations w' = invocations w
  /\ requests w' = requests w.

(** The lines step 6 prints for an answer of the service. *)
Definition update_report_lines (result : EditResponse) : list Line :=
  [ Print "Update results: {}" [AResponse result];
    if nonempty (update_errors result) then
      Print "\nErrors occurred during update: {}" [AErrors (update_errors result)]
    else
      Print "All features updated successfully in the layer." [] ].

Definition nothing_to_do_line : Line :=
  Print "No new submissions to process. Exiting." [].

(** How a run leaves the layer: untouched, or as the service left it after
    the one batch submitted. *)
Definition committed_once_or_never (env : Env) (w w' : World) : Prop :=
  (rows (layer w') = rows (layer w) /\ edits w' = edits w)
  \/ (exists l updates,
        rows l = rows (layer w)
        /\ updates <> []
        /\ edits w' = edits w ++ [updates]
        /\ layer w' = snd (edit_features_service env l updates)).

(** Steps 1 to 3 go through. *)
Definition setup_succeeds (env : Env) (w : World) : Prop :=
  (exists portal, gis_login env = Ok portal)
  /\ (exists name, layer_open env = Ok name)
  /\ (FLAG_FIELD ∈ fields (layer w) \/ add_to_definition_fault env = None).

(** ** Sample surroundings *)

Module Sample.

Definition feature (oid : Z) (note : PyVal) (flag : option PyVal) : Feature :=
  {| attributes :=
       let m := <[OBJECTID_FIELD := VInt oid]> (<[NOTES_FIELD := note]> ∅) in
       match flag with
       | Some v => <[FLAG_FIELD := v]> m
       | None => m
       end |}.

Definition answer (label : string) : ChatCompletion :=
  {| choices := [ {| message := {| content := VStr (Str.txt label) |} |} ] |}.

(** A service that accepts every update and stores nothing else. *)
Definition accept_all (l : Layer) (updates : list Feature)
    : result EditResponse * Layer :=
  (Ok {| updateResults :=
           Some (map (fun f =>
                        {| objectId :=
                             match get (attributes f) OBJECTID_FIELD with
                             | VInt z => Some z
                             | _ => None
                             end;
                           success := Some true;
                           error := None |}) updates) |},
   l).

(** Everything configured; the backend answers with [label]. *)
Definition env_answering (label : string) : Env := {|
  ARCGIS_PORTAL_URL := "https://www.arcgis.com";
  ARCGIS_CLIENT_ID := None;
  ARCGIS_CLIENT_SECRET := None;
  ARCGIS_USERNAME := Some "relief";
  ARCGIS_PASSWORD := Some "secret";
  OPENAI_API_KEY := Some "sk-test";
  openai_installed := true;
  chat_completions_create := fun _ _ => Ok (answer label);
  gis_login := Ok {| portalName := "ArcGIS Online"; me := Some "relief" |};
  layer_open := Ok (Some "survey");
  add_to_definition_fault := None;
  query_fault := None;
  edit_features_service := accept_all
|}.

(** The same, for a label given by its code points. *)
Definition env_answering_text (label : text) : Env := {|
  ARCGIS_PORTAL_URL := "https://www.arcgis.com";
  ARCGIS_CLIENT_ID := None;
  ARCGIS_CLIENT_SECRET := None;
  ARCGIS_USERNAME := Some "relief";
  ARCGIS_PASSWORD := Some "secret";
  OPENAI_API_KEY := Some "sk-test";
  openai_installed := true;
  chat_completions_create :=
    fun _ _ => Ok {| choices := [ {| message := {| content := VStr label |} |} ] |};
  gis_login := Ok {| portalName := "ArcGIS Online"; me := Some "relief" |};
  layer_open := Ok (Some "survey");
  add_to_definition_fault := None;
  query_fault := None;
  edit_features_service := accept_all
|}.

(** The same surroundings without the credential of the backend. *)
Definition env_no_key : Env := {|
  ARCGIS_PORTAL_URL := "https://www.arcgis.com";
  ARCGIS_CLIENT_ID := None;
  ARCGIS_CLIENT_SECRET := None;
  ARCGIS_USERNAME := Some "relief";
  ARCGIS_PASSWORD := Some "secret";
  OPENAI_API_KEY := None;
  openai_installed := true;
  chat_completions_create := fun _ _ => Ok (answer "OK");
  gis_login := Ok {| portalName := "ArcGIS Online"; me := Some "relief" |};
  layer_open := Ok (Some "survey");
  add_to_definition_fault := None;
  query_fault := None;
  edit_features_service := accept_all
|}.

Definition world (l : Layer) : World :=
  {| stdout := []; requests := []; invocations := []; layer := l; edits := [] |}.

Definition schema : list string := [OBJECTID_FIELD; NOTES_FIELD; FLAG_FIELD].

(** One note on fire, one about the power, one already triaged. *)
Definition backlog : Layer :=
  {| fields := schema;
     rows := [ feature 1 (VStr (Str.txt "My house is on fire! Help!")) None;
               feature 2 (VStr (Str.txt "When will the power be back on?")) (Some (VStr (Str.txt "")));
               feature 3 VNone (Some (VStr (Str.txt "OK"))) ] |}.

(** Every row already carries a flag. *)
Definition triaged : Layer :=
  {| fields := schema;
     rows := [ feature 1 (VStr (Str.txt "My house is on fire! Help!")) (Some (VStr (Str.txt "911_REVIEW")));
               feature 2 (VStr (Str.txt "When will the power be back on?")) (Some (VStr (Str.txt "OK"))) ] |}.

Definition power_note : PyVal := VStr (Str.txt "When will the power be back on?").

Definition locked : ErrorInfo := {| code := 1019; description := "Row is locked" |}.

(** Record 1 written, record 2 refused. *)
Definition partial_failure : EditResponse :=
  {| updateResults :=
       Some [ {| objectId := Some 1%Z; success := Some true; error := None |};
              {| objectId := Some 2%Z; success := Some false; error := Some locked |} ] |}.

(** Record 7 refused for the same reason, nothing else in the batch. *)
Definition lone_failure : EditResponse :=
  {| updateResults :=
       Some [ {| objectId := Some 7%Z; success := Some false; error := Some locked |} ] |}.

End Sample.

(** ** Vocabulary of the properties of a whole batch *)

(** [feature.attributes.get(NOTES_FIELD)] and
    [feature.attributes.get(OBJECTID_FIELD)]. *)
Definition note_of (f : Feature) : PyVal := get (attributes f) NOTES_FIELD.
Definition oid_of (f : Feature) : PyVal := get (attributes f) OBJECTID_FIELD.

(** The client library is installed and the credential is set. *)
Definition configured (env : Env) : bool :=
  openai_installed env && getenv_truthy (OPENAI_API_KEY env).





(** Surroundings in which the backend answers without any choice. *)
Definition env_empty_answer : Env := {|
  ARCGIS_PORTAL_URL := "https://www.arcgis.com";
  ARCGIS_CLIENT_ID := None;
  ARCGIS_CLIENT_SECRET := None;
  ARCGIS_USERNAME := None;
  ARCGIS_PASSWORD := None;
  OPENAI_API_KEY := Some "sk-test";
  openai_installed := true;
  chat_completions_create := fun _ _ => Ok {| choices := [] |};
  gis_login := Ok {| portalName := "ArcGIS Online"; me := None |};
  layer_open := Ok None;
  add_to_definition_fault := None;
  query_fault := None;
  edit_features_service := Sample.accept_all
|}.

(** The feature a turn of the loop returns (the feature itself should the
    turn raise). *)
Definition fst_ok_feature (env : Env) (f : Feature) (w : World) : Feature :=
  match analyze_feature env f w with
  | (Ok u, _) => u
  | (Raise _, _) => f
  end.

(** Surroundings in which the query of the layer fails. *)
Definition env_query_down : Env := {|
  ARCGIS_PORTAL_URL := "https://www.arcgis.com";
  ARCGIS_CLIENT_ID := Some "app";
  ARCGIS_CLIENT_SECRET := Some "secret";
  ARCGIS_USERNAME := None;
  ARCGIS_PASSWORD := None;
  OPENAI_API_KEY := Some "sk-test";
  openai_installed := true;
  chat_completions_create := fun _ _ => Ok (Sample.answer "OK");
  gis_login := Ok {| portalName := "ArcGIS Online"; me := None |};
  layer_open := Ok (Some "survey");
  add_to_definition_fault := None;
  query_fault := Some (Exception "timeout");
  edit_features_service := Sample.accept_all
|}.

(** Surroundings in which the login is refused. *)
Definition env_login_refused : Env := {|
  ARCGIS_PORTAL_URL := "https://www.arcgis.com";
  ARCGIS_CLIENT_ID := None;
  ARCGIS_CLIENT_SECRET := None;
  ARCGIS_USERNAME := Some "relief";
  ARCGIS_PASSWORD := Some "wrong";
  OPENAI_API_KEY := Some "sk-test";
  openai_installed := true;
  chat_completions_create := fun _ _ => Ok (Sample.answer "OK");
  gis_login := Raise (Exception "Invalid username or password");
  layer_open := Ok (Some "survey");
  add_to_definition_fault := None;
  query_fault := None;
  edit_features_service := Sample.accept_all
|}.

(** Surroundings in which the batch write fails as a whole. *)
Definition env_write_down : Env := {|
  ARCGIS_PORTAL_URL := "https://www.arcgis.com";
  ARCGIS_CLIENT_ID := None;
  ARCGIS_CLIENT_SECRET := None;
  ARCGIS_USERNAME := Some "relief";
  ARCGIS_PASSWORD := Some "secret";
  OPENAI_API_KEY := Some "sk-test";
  openai_installed := true;
  chat_completions_create := fun _ _ => Ok (Sample.answer "OK");
  gis_login := Ok {| portalName := "ArcGIS Online"; me := Some "relief" |};
  layer_open := Ok (Some "survey");
  add_to_definition_fault := None;
  query_fault := None;
  edit_features_service := fun l _ => (Raise (Exception "503"), l)
|}.

(** A layer that has no flag field yet. *)
Definition fresh_layer : Layer :=
  {| fields := [OBJECTID_FIELD; NOTES_FIELD];
     rows := [ Sample.feature 1 (VStr (Str.txt "My house is on fire! Help!")) None ] |}.

Definition query_failed_line (e : exn) : Line :=
  Print "Failed to query features. Please check your field names. Error: {}" [AExn e].


(** * Properties

    ** Facts about the string primitives *)

Module StrFacts.
Import Str.

Lemma startswith_app (p post : text) : startswith (p ++ post) p = true.
Proof.
  induction p as [|a p IH]; simpl; [reflexivity|].
  rewrite N.eqb_refl. exact IH.
Qed.

Lemma startswith_inv (p s : text) :
  startswith s p = true -> exists post, s = p ++ post.
Proof.
  revert s. induction p as [|a p IH]; intros s H; simpl in *.
  - exists s. reflexivity.
  - destruct s as [|b s]; [discriminate|].
    apply andb_true_iff in H as [Hab Hs].
    apply N.eqb_eq in Hab. subst b.
    destruct (IH _ Hs) as [post ->]. exists post. reflexivity.
Qed.

Lemma contains_here (needle hay : text) :
  startswith hay needle = true -> contains needle hay = true.
Proof. intros H. destruct hay; simpl; rewrite H; reflexivity. Qed.

Lemma contains_occurs (needle hay : text) :
  contains needle hay = true <-> occurs_in needle hay.
Proof.
  split.
  - induction hay as [|c hay IH]; simpl; intros H.
    + rewrite orb_false_r in H. apply startswith_inv in H as [post ->].
      exists [], post. reflexivity.
    + apply orb_true_iff in H as [H|H].
      * apply startswith_inv in H as [post ->]. exists [], post. reflexivity.
      * destruct (IH H) as (pre & post & ->). exists (c :: pre), post. reflexivity.
  - intros (pre & post & ->). induction pre as [|c pre IH]; simpl.
    + apply contains_here, startswith_app.
    + rewrite IH. apply orb_true_r.
Qed.

Lemma occurs_in_trans (a b c : text) :
  occurs_in a b -> occurs_in b c -> occurs_in a c.
Proof.
  intros (p1 & q1 & ->) (p2 & q2 & ->).
  exists (p2 ++ p1), (q1 ++ q2). now rewrite <- !app_assoc.
Qed.

Lemma assoc_In (c : N) (table : list (N * text)) (image : text) :
  assoc c table = Some image -> In (c, image) table.
Proof.
  induction table as [|[k v] table IH]; simpl; [discriminate|].
  destruct (k =? c)%N eqn:E.
  - intros H. injection H as <-. apply N.eqb_eq in E. subst k. now left.
  - intros H. right. now apply IH.
Qed.

Lemma in_ascii_range (x : N) : (x <? 128)%N = true -> In x ascii_range.
Proof.
  intros H. apply N.ltb_lt in H. unfold ascii_range. apply in_map_iff.
  exists (N.to_nat x). split; [apply N2Nat.id|]. apply in_seq. lia.
Qed.

(** *** The primitives on some characters *)

(** Sigma at the end of a word, and elsewhere. *)
Example lower_final_sigma :
  lower [927; 916; 927; 931; 32; 931; 913]%N = [959; 948; 959; 962; 32; 963; 945]%N.
Proof. vm_compute. reflexivity. Qed.

(** The dotted capital I and the Kelvin sign. *)
Example lower_dotted_i_and_kelvin :
  lower [304; 8490]%N = [105; 775; 107]%N.
Proof. vm_compute. reflexivity. Qed.

(** The sharp s and a ligature. *)
Example upper_sharp_s_and_ligature :
  upper [223; 64259]%N = txt "SSFFI".
Proof. vm_compute. reflexivity. Qed.

(** The em space and the ideographic space are stripped. *)
Example strip_unicode_spaces :
  strip ([8195; 10]%N ++ txt "a b" ++ [12288; 160]%N) = txt "a b".
Proof. vm_compute. reflexivity. Qed.

(** *** Searching a word in a text of images *)

Section Expansions.
Variable letter : N -> bool.
Variables form long_form : N -> N -> bool.

Lemma startswith_parts (m : text) :
  forall parts,
    forallb letter m = true ->
    forallb (part_ok letter form long_form) parts = true ->
    startswith (flat_map snd parts) m = true ->
    exists ps rest, parts = ps ++ rest /\ spells form long_form (map fst ps) m.
Proof.
  induction m as [|d m IH]; intros parts Hm Hp H.
  - exists [], parts. split; [reflexivity|constructor].
  - simpl in Hm. apply andb_true_iff in Hm as [Hd Hm].
    destruct parts as [|[c e] parts]; [discriminate H|].
    simpl in Hp. apply andb_true_iff in Hp as [Hpc Hps].
    unfold part_ok in Hpc. simpl in Hpc.
    destruct e as [|e0 rest]; [discriminate Hpc|].
    simpl in H. apply andb_true_iff in H as [He H].
    apply N.eqb_eq in He. subst e0. rewrite Hd in Hpc. simpl in Hpc.
    destruct rest as [|x rest].
    + simpl in H. destruct (IH parts Hm Hps H) as (ps & r & -> & Hs).
      exists ((c, [d]) :: ps), r. split; [reflexivity|].
      simpl. now constructor.
    + apply andb_true_iff in Hpc as [Hl Hx].
      destruct m as [|d' m].
      * exists [(c, d :: x :: rest)], parts. split; [reflexivity|].
        simpl. now apply spells_long.
      * simpl in H. apply andb_true_iff in H as [Hdx _].
        apply N.eqb_eq in Hdx. subst d'. simpl in Hm.
        apply andb_true_iff in Hm as [Hlx _]. rewrite Hlx in Hx. discriminate.
Qed.

Lemma contains_skip (h : N) (m a r : text) :
  forallb (fun x => negb (x =? h)%N) a = true ->
  contains (h :: m) (a ++ r) = contains (h :: m) r.
Proof.
  induction a as [|x a IH]; intros H; [reflexivity|].
  simpl in H. apply andb_true_iff in H as [Hx Ha].
  change (contains (h :: m) ((x :: a) ++ r))
    with (startswith (x :: a ++ r) (h :: m) || contains (h :: m) (a ++ r)).
  rewrite (IH Ha). simpl startswith.
  apply negb_true_iff in Hx. rewrite N.eqb_sym, Hx. reflexivity.
Qed.

Lemma contains_parts (h : N) (m : text) (parts : list (N * text)) :
  forallb letter (h :: m) = true ->
  forallb (part_ok letter form long_form) parts = true ->
  forallb (tail_clear h) parts = true ->
  contains (h :: m) (flat_map snd parts) = true ->
  exists pre ps post,
    parts = pre ++ ps ++ post /\ spells form long_form (map fst ps) (h :: m).
Proof.
  intros Hm. induction parts as [|[c e] parts IH]; intros Hp Ht H.
  - discriminate H.
  - simpl in Hp, Ht. apply andb_true_iff in Hp as [Hpc Hps].
    apply andb_true_iff in Ht as [Htc Hts].
    assert (Hcase : startswith (flat_map snd ((c, e) :: parts)) (h :: m) = true
                    \/ contains (h :: m) (flat_map snd parts) = true).
    { destruct e as [|e0 rest]; [discriminate Hpc|].
      change (flat_map snd ((c, e0 :: rest) :: parts))
        with (e0 :: rest ++ flat_map snd parts) in *.
      change (contains (h :: m) (e0 :: rest ++ flat_map snd parts))
        with (startswith (e0 :: rest ++ flat_map snd parts) (h :: m)
              || contains (h :: m) (rest ++ flat_map snd parts)) in H.
      apply orb_true_iff in H as [H|H]; [now left|right].
      unfold tail_clear in Htc. simpl in Htc. now rewrite contains_skip in H. }
    destruct Hcase as [Hs|Hc].
    + destruct (startswith_parts (h :: m) ((c, e) :: parts) Hm) as (ps & r & E & S);
        [simpl; now rewrite Hpc|exact Hs|].
      exists [], ps, r. split; [exact E|exact S].
    + destruct (IH Hps Hts Hc) as (pre & ps & post & -> & S).
      exists ((c, e) :: pre), ps, post. split; [reflexivity|exact S].
Qed.

(** A text that spells a word with a last letter: the letters before, and
    the last character in a form or a long form of the last letter. *)
Lemma spells_snoc (m : text) (d : N) :
  forall u,
    spells form long_form u (m ++ [d]) ->
    exists body y,
      u = body ++ [y]
      /\ Forall2 (fun c x => form c x = true) body m
      /\ (form y d = true \/ long_form y d = true).
Proof.
  induction m as [|d0 m IH]; intros u H; simpl in H.
  - inversion H as [|c d' Hl|c d' u' m' Hf Hs]; subst.
    + exists [], c. auto.
    + inversion Hs; subst. exists [], c. auto.
  - inversion H as [|c d' Hl Hu Hm|c d' u' m' Hf Hs]; subst.
    + destruct m; discriminate.
    + destruct (IH _ Hs) as (body & y & -> & Hb & Hy).
      exists (c :: body), y. auto.
Qed.

End Expansions.

Lemma occurs_of_parts (parts pre ps post : list (N * text)) :
  parts = pre ++ ps ++ post -> occurs_in (map fst ps) (map fst parts).
Proof. intros ->. exists (map fst pre), (map fst post). now rewrite !map_app. Qed.

(** *** [lower] *)

Lemma lower_parts_fst (before s : text) : map fst (lower_parts before s) = s.
Proof.
  revert before. induction s as [|c s IH]; intros before; simpl; [reflexivity|].
  now rewrite IH.
Qed.

Lemma lower_parts_snd (before s : text) :
  flat_map snd (lower_parts before s) = lower_from before s.
Proof.
  revert before. induction s as [|c s IH]; intros before; simpl; [reflexivity|].
  now rewrite IH.
Qed.

Lemma lower_table_ok :
  forallb (fun p => part_ok vocab_char is_case_form is_dotted_capital_i p
                    && tail_foreign p) lower_table = true.
Proof. vm_compute. reflexivity. Qed.

Lemma case_form_self (x : N) : is_case_form x x = true.
Proof.
  unfold is_case_form, case_forms.
  destruct ((97 <=? x)%N && (x <=? 122)%N); simpl; now rewrite N.eqb_refl.
Qed.

Lemma lower_at_ok (before : text) (c : N) (after : text) :
  part_ok vocab_char is_case_form is_dotted_capital_i (c, lower_at before c after) = true
  /\ tail_foreign (c, lower_at before c after) = true.
Proof.
  unfold lower_at. destruct (c =? 931)%N.
  - destruct (final_sigma before after); split; reflexivity.
  - unfold to_lower_full. destruct (assoc c lower_table) as [e|] eqn:E; simpl.
    + apply assoc_In in E. pose proof lower_table_ok as H.
      rewrite forallb_forall in H. apply H in E.
      now apply andb_true_iff in E.
    + split; [|reflexivity]. unfold part_ok. simpl.
      rewrite case_form_self. now destruct (vocab_char c).
Qed.

Lemma lower_parts_ok (before s : text) :
  forallb (part_ok vocab_char is_case_form is_dotted_capital_i)
    (lower_parts before s) = true
  /\ forallb tail_foreign (lower_parts before s) = true.
Proof.
  revert before. induction s as [|c s IH]; intros before; simpl; [auto|].
  destruct (lower_at_ok before c s) as [-> ->].
  destruct (IH (c :: before)) as [-> ->]. auto.
Qed.

Lemma foreign_is_clear (h : N) (parts : list (N * text)) :
  vocab_char h = true ->
  forallb tail_foreign parts = true -> forallb (tail_clear h) parts = true.
Proof.
  intros Hh H. rewrite forallb_forall in *. intros p Hp.
  specialize (H p Hp). unfold tail_foreign, tail_clear in *.
  rewrite forallb_forall in *. intros x Hx. specialize (H x Hx).
  destruct (x =? h)%N eqn:E; [|reflexivity].
  apply N.eqb_eq in E. subst x. rewrite Hh in H. discriminate.
Qed.

Lemma spells_same_letters (u m : text) :
  spells is_case_form is_dotted_capital_i u m ->
  last m <> Some 105%N -> same_letters u m.
Proof.
  unfold same_letters. induction 1 as [|c d Hl|c d u m Hf Hs IH]; intros Hlast.
  - constructor.
  - exfalso. apply Hlast. unfold is_dotted_capital_i in Hl.
    apply andb_true_iff in Hl as [_ Hd]. apply N.eqb_eq in Hd. now subst d.
  - constructor.
    + unfold is_case_form in Hf. apply existsb_exists in Hf as (x & Hx & E).
      apply N.eqb_eq in E. now subst x.
    + apply IH. destruct m as [|d' m]; [discriminate|exact Hlast].
Qed.

Lemma case_forms_lower_check :
  forallb (fun d => implb (vocab_char d)
                      (forallb (fun c => negb (c =? 931)%N
                                         && text_eqb (to_lower_full c) [d])
                         (case_forms d))) ascii_range = true.
Proof. vm_compute. reflexivity. Qed.

Lemma case_form_lower (d c : N) :
  vocab_char d = true -> In c (case_forms d) ->
  (c =? 931)%N = false /\ to_lower_full c = [d].
Proof.
  intros Hd Hc. pose proof case_forms_lower_check as H.
  rewrite forallb_forall in H.
  assert (Hin : In d ascii_range).
  { apply in_ascii_range. unfold vocab_char in Hd.
    now apply andb_true_iff in Hd as [Hd _]. }
  specialize (H d Hin). rewrite Hd in H. simpl in H.
  rewrite forallb_forall in H. specialize (H c Hc).
  apply andb_true_iff in H as [H1 H2]. split.
  - now apply negb_true_iff.
  - unfold text_eqb in H2. now apply bool_decide_eq_true in H2.
Qed.

Lemma lower_from_same (u m : text) :
  same_letters u m -> forallb vocab_char m = true ->
  forall before post,
    lower_from before (u ++ post) = m ++ lower_from (rev u ++ before) post.
Proof.
  unfold same_letters. induction 1 as [|c d u m Hc _ IH]; intros Hm before post.
  - reflexivity.
  - simpl in Hm. apply andb_true_iff in Hm as [Hd Hm].
    destruct (case_form_lower d c Hd Hc) as [Hs Hl].
    simpl. unfold lower_at. rewrite Hs, Hl. simpl.
    rewrite (IH Hm), <- app_assoc. reflexivity.
Qed.

Lemma lower_from_app (pre x : text) :
  forall before,
    exists front, lower_from before (pre ++ x)
                  = front ++ lower_from (rev pre ++ before) x.
Proof.
  induction pre as [|c pre IH]; intros before.
  - now exists [].
  - simpl. destruct (IH (c :: before)) as [front ->].
    exists (lower_at before c (pre ++ x) ++ front).
    now rewrite <- !app_assoc.
Qed.

(** The search of a word of vocabulary characters that does not end in i,
    in terms of the text that is lowercased. *)
Lemma lower_search (word s : text) :
  forallb vocab_char word = true ->
  nonempty word = true ->
  last word <> Some 105%N ->
  contains word (lower s) = true
  <-> exists u, same_letters u word /\ occurs_in u s.
Proof.
  intros Hv Hne Hlast. split.
  - intros H. destruct word as [|h m]; [discriminate|].
    unfold lower in H. rewrite <- lower_parts_snd in H.
    destruct (lower_parts_ok [] s) as [Hok Hf].
    assert (Hh : vocab_char h = true)
      by (simpl in Hv; now apply andb_true_iff in Hv as [Hv _]).
    destruct (contains_parts vocab_char is_case_form is_dotted_capital_i
                h m (lower_parts [] s) Hv Hok (foreign_is_clear h _ Hh Hf) H)
      as (pre & ps & post & E & S).
    exists (map fst ps). split; [now apply spells_same_letters|].
    apply occurs_of_parts in E. now rewrite lower_parts_fst in E.
  - intros (u & Hu & pre & post & ->). apply contains_occurs. unfold lower.
    destruct (lower_from_app pre (u ++ post) []) as [front ->].
    rewrite (lower_from_same u word Hu Hv). now exists front, (lower_from (rev u ++ rev pre ++ []) post).
Qed.

(** *** [upper] *)

Lemma upper_parts_fst (s : text) : map fst (upper_parts s) = s.
Proof. unfold upper_parts. rewrite map_map. simpl. apply map_id. Qed.

Lemma upper_parts_snd (s : text) : flat_map snd (upper_parts s) = upper s.
Proof.
  unfold upper_parts, upper. induction s as [|c s IH]; simpl; [reflexivity|].
  now rewrite IH.
Qed.

Lemma upper_app (a b : text) : upper (a ++ b) = upper a ++ upper b.
Proof. apply flat_map_app. Qed.

Lemma upper_table_ok :
  forallb (fun p => part_ok marker_letter is_marker_form is_ringed_y p
                    && tail_clear 69 p) upper_table = true.
Proof. vm_compute. reflexivity. Qed.

Lemma upper_parts_ok (s : text) :
  forallb (part_ok marker_letter is_marker_form is_ringed_y) (upper_parts s) = true
  /\ forallb (tail_clear 69) (upper_parts s) = true.
Proof.
  induction s as [|c s [IH1 IH2]]; simpl; [auto|].
  rewrite IH1, IH2, !andb_true_r.
  unfold to_upper_full. destruct (assoc c upper_table) as [e|] eqn:E; simpl.
  - apply assoc_In in E. pose proof upper_table_ok as H.
    rewrite forallb_forall in H. apply H in E.
    now apply andb_true_iff in E.
  - split; [|reflexivity]. unfold part_ok, is_marker_form, marker_forms. simpl.
    rewrite N.eqb_refl. now destruct (marker_letter c).
Qed.

Lemma marker_forms_upper_check :
  forallb (fun d => forallb (fun c => text_eqb (to_upper_full c) [d]
                                      && negb (is_space c))
                      (marker_forms d)) (txt "EMERGENCY") = true
  /\ forallb (fun y => match to_upper_full y with
                       | e0 :: _ => (e0 =? 89)%N && negb (is_space y)
                       | [] => false
                       end) final_y_forms = true.
Proof. vm_compute. split; reflexivity. Qed.

Lemma marker_form_upper (d c : N) :
  In d (txt "EMERGENCY") -> In c (marker_forms d) ->
  to_upper_full c = [d] /\ is_space c = false.
Proof.
  intros Hd Hc. destruct marker_forms_upper_check as [H _].
  rewrite forallb_forall in H. specialize (H d Hd).
  rewrite forallb_forall in H. specialize (H c Hc).
  apply andb_true_iff in H as [H1 H2]. split.
  - unfold text_eqb in H1. now apply bool_decide_eq_true in H1.
  - now apply negb_true_iff.
Qed.

Lemma final_y_upper (y : N) :
  In y final_y_forms ->
  (exists rest, to_upper_full y = 89%N :: rest) /\ is_space y = false.
Proof.
  intros Hy. destruct marker_forms_upper_check as [_ H].
  rewrite forallb_forall in H. specialize (H y Hy).
  destruct (to_upper_full y) as [|e0 rest]; [discriminate|].
  apply andb_true_iff in H as [E Hs]. apply N.eqb_eq in E. subst e0.
  split; [now exists rest|now apply negb_true_iff].
Qed.

Lemma upper_of_forms (body m : text) :
  Forall2 (fun c d => In c (marker_forms d)) body m ->
  (forall d, In d m -> In d (txt "EMERGENCY")) ->
  upper body = m /\ forallb (fun c => negb (is_space c)) body = true.
Proof.
  induction 1 as [|c d body m Hc _ IH]; intros Hm; [auto|].
  destruct (marker_form_upper d c (Hm d (or_introl eq_refl)) Hc) as [Hu Hs].
  destruct IH as [IH1 IH2]; [intros x Hx; apply Hm; now right|].
  simpl. unfold upper in *. simpl. rewrite Hu, Hs, IH1, IH2. auto.
Qed.

Lemma marker_body_letters (d : N) :
  In d (txt "EMERGENC") -> In d (txt "EMERGENCY").
Proof. simpl. intuition. Qed.

(** The search of the marker in an uppercased text, in terms of the text:
    the letters of EMERGENC in one case or the other, and a final Y. *)
Lemma upper_search (s : text) :
  contains (txt "EMERGENCY") (upper s) = true
  <-> exists body y,
        occurs_in (body ++ [y]) s
        /\ Forall2 (fun c d => In c (marker_forms d)) body (txt "EMERGENC")
        /\ In y final_y_forms.
Proof.
  split.
  - intros H. rewrite <- upper_parts_snd in H.
    destruct (upper_parts_ok s) as [Hok Hc].
    destruct (contains_parts marker_letter is_marker_form is_ringed_y
                69%N (txt "MERGENCY") (upper_parts s) eq_refl Hok Hc H)
      as (pre & ps & post & E & S).
    apply occurs_of_parts in E. rewrite upper_parts_fst in E.
    apply (spells_snoc is_marker_form is_ringed_y (txt "EMERGENC") 89%N) in S
      as (body & y & Eu & Hb & Hy).
    rewrite Eu in E. exists body, y. split; [exact E|]. split.
    + eapply Forall2_impl; [exact Hb|]. intros c d Hf. simpl in Hf.
      unfold is_marker_form in Hf. apply existsb_exists in Hf as (x & Hx & Ex).
      apply N.eqb_eq in Ex. now subst x.
    + destruct Hy as [Hy|Hy].
      * unfold is_marker_form in Hy. apply existsb_exists in Hy as (x & Hx & Ex).
        apply N.eqb_eq in Ex. subst x. simpl in Hx |- *. tauto.
      * unfold is_ringed_y in Hy. apply andb_true_iff in Hy as [Hy _].
        apply N.eqb_eq in Hy. subst y. simpl. tauto.
  - intros (body & y & (pre & post & ->) & Hb & Hy). apply contains_occurs.
    destruct (upper_of_forms body _ Hb marker_body_letters) as [Hu _].
    destruct (final_y_upper y Hy) as [[rest Hr] _].
    exists (upper pre), (rest ++ upper post).
    rewrite !upper_app, Hu. unfold upper at 2. simpl flat_map.
    rewrite Hr, app_nil_r, <- !app_assoc. reflexivity.
Qed.

(** *** [strip] *)

Lemma in_ranges_list (c : N) (ranges : list (N * N)) :
  in_ranges c ranges = existsb (N.eqb c) (flat_map range_list ranges).
Proof.
  unfold in_ranges. induction ranges as [|[lo hi] ranges IH]; [reflexivity|].
  simpl. rewrite existsb_app, IH. f_equal.
  apply eq_true_iff_eq. rewrite andb_true_iff, existsb_exists.
  rewrite N.leb_le, N.leb_le. unfold range_list. simpl. split.
  - intros [H1 H2]. exists c. split; [|apply N.eqb_refl].
    apply in_map_iff. exists (N.to_nat (c - lo)). split; [lia|].
    apply in_seq. lia.
  - intros (x & Hx & E). apply N.eqb_eq in E. subst x.
    apply in_map_iff in Hx as (k & <- & Hk). apply in_seq in Hk. lia.
Qed.

(** The table of [is_space] holds the whitespace characters, no more and
    no fewer. *)
Lemma is_space_whitespace (c : N) : is_space c = is_whitespace c.
Proof. unfold is_space. rewrite in_ranges_list. reflexivity. Qed.

Lemma lstrip_suffix (s : text) : exists l, s = l ++ lstrip s.
Proof.
  induction s as [|c s [l IH]]; simpl; [now exists []|].
  destruct (is_space c); [|now exists []].
  exists (c :: l). simpl. now rewrite <- IH.
Qed.

Lemma rstrip_prefix (s : text) : exists r, s = rstrip s ++ r.
Proof.
  induction s as [|c s [r IH]]; simpl; [now exists []|].
  destruct (rstrip s) eqn:E.
  - destruct (is_space c).
    + exists (c :: s). reflexivity.
    + exists r. simpl. now rewrite IH at 1.
  - exists r. simpl. now rewrite IH at 1.
Qed.

Lemma strip_occurs (s : text) : occurs_in (strip s) s.
Proof.
  destruct (lstrip_suffix s) as [l Hl].
  destruct (rstrip_prefix (lstrip s)) as [r Hr].
  exists l, r. unfold strip. now rewrite <- Hr.
Qed.

Lemma rstrip_cons (c : N) (s : text) :
  is_space c = false -> rstrip (c :: s) = c :: rstrip s.
Proof. intros H. simpl. rewrite H. now destruct (rstrip s). Qed.

Lemma rstrip_app (a b : text) :
  nonempty (rstrip b) = true -> rstrip (a ++ b) = a ++ rstrip b.
Proof.
  intros H. induction a as [|c a IH]; simpl; [reflexivity|].
  rewrite IH. destruct (a ++ rstrip b) eqn:E; [|reflexivity].
  destruct a; simpl in E; [|discriminate]. rewrite E in H. discriminate.
Qed.

Lemma rstrip_solid (u post : text) :
  forallb (fun c => negb (is_space c)) u = true ->
  rstrip (u ++ post) = u ++ rstrip post.
Proof.
  induction u as [|c u IH]; intros H; [reflexivity|].
  simpl in H. apply andb_true_iff in H as [Hc Hu].
  apply negb_true_iff in Hc.
  change ((c :: u) ++ post) with (c :: u ++ post).
  rewrite rstrip_cons by exact Hc. now rewrite IH.
Qed.

Lemma lstrip_keeps (pre u post : text) (c : N) :
  is_space c = false ->
  exists pre', lstrip (pre ++ (c :: u) ++ post) = pre' ++ (c :: u) ++ post.
Proof.
  intros Hc. induction pre as [|p pre [pre' IH]]; simpl.
  - rewrite Hc. now exists [].
  - destruct (is_space p); [now exists pre'|].
    now exists (p :: pre).
Qed.

(** A non-empty run without blanks that occurs in [s] occurs in
    [strip s]. *)
Lemma occurs_in_strip (u s : text) :
  nonempty u = true ->
  forallb (fun c => negb (is_space c)) u = true ->
  occurs_in u s -> occurs_in u (strip s).
Proof.
  intros Hne Hu (pre & post & ->). destruct u as [|c u]; [discriminate|].
  assert (Hc : is_space c = false).
  { simpl in Hu. apply andb_true_iff in Hu as [Hc _]. now apply negb_true_iff. }
  destruct (lstrip_keeps pre u post c Hc) as [pre' E].
  unfold strip. rewrite E. exists pre', (rstrip post).
  rewrite rstrip_app; rewrite rstrip_solid by exact Hu; reflexivity.
Qed.

Lemma all_space_strip (s : text) :
  all_space s = true <-> nonempty (strip s) = false.
Proof.
  unfold strip. induction s as [|c s IH].
  - simpl. tauto.
  - change (all_space (c :: s)) with (is_whitespace c && all_space s).
    rewrite <- is_space_whitespace.
    change (lstrip (c :: s)) with (if is_space c then lstrip s else c :: s).
    destruct (is_space c) eqn:Hc.
    + exact IH.
    + rewrite (rstrip_cons c s Hc). simpl. split; discriminate.
Qed.

End StrFacts.

(** ** The keyword stage *)

Module KeywordStage.
Import Str StrFacts.

Lemma on_string (s : text) :
  is_emergency_keyword (VStr s)
  = Ok (any (fun word => contains word (lower s)) emergency_words).
Proof. reflexivity. Qed.

(** The vocabulary is written in small ASCII letters, apostrophe and
    space, and no term ends in i. *)
Lemma vocabulary_plain (word : text) :
  In word emergency_words ->
  forallb vocab_char word = true
  /\ nonempty word = true
  /\ last word <> Some 105%N.
Proof.
  unfold emergency_words. simpl.
  intros H. repeat (destruct H as [<-|H]; [repeat split; discriminate|]).
  contradiction.
Qed.

Lemma same_letters_refl (w : text) : same_letters w w.
Proof.
  unfold same_letters. induction w as [|x w IH]; constructor; [|exact IH].
  pose proof (case_form_self x) as H. unfold is_case_form in H.
  apply existsb_exists in H as (y & Hy & E). apply N.eqb_eq in E. now subst y.
Qed.

Lemma any_word_iff (s : text) :
  any (fun word => contains word (lower s)) emergency_words = true
  <-> mentions_term s.
Proof.
  unfold any, mentions_term. rewrite existsb_exists. split.
  - intros (word & Hin & Hc).
    destruct (vocabulary_plain word Hin) as (Hv & Hne & Hl).
    apply (lower_search word s Hv Hne Hl) in Hc as (u & Hu & Ho).
    exists word, u. auto.
  - intros (word & u & Hin & Hu & Ho).
    destruct (vocabulary_plain word Hin) as (Hv & Hne & Hl).
    exists word. split; [exact Hin|].
    apply (lower_search word s Hv Hne Hl). now exists u.
Qed.

(** C3.  Whatever is not a string -- [None] included -- is classified
    [False] by the keyword stage, and the classification is a returned
    value, never a raised exception. *)
Theorem non_string_is_false (text : PyVal) :
  isinstance_str text = false -> is_emergency_keyword text = Ok false.
Proof.
  intros H. unfold is_emergency_keyword. rewrite H. reflexivity.
Qed.

Lemma non_string_is_false_witness :
  isinstance_str VNone = false /\ is_emergency_keyword VNone = Ok false.
Proof.
  split; [reflexivity|]. apply (non_string_is_false VNone). reflexivity.
Defined.

(** The empty note has no keyword either. *)
Lemma empty_string_is_false : is_emergency_keyword (VStr (Str.txt "")) = Ok false.
Proof. reflexivity. Qed.

(** C4.  On a string the keyword stage answers [True] exactly when some
    term of the fixed vocabulary occurs in it as a substring, read without
    regard to letter case, and [False] exactly when none does.  Letter case
    is that of [Str.case_forms]: each letter of a term may be the small
    letter or its capital (for k also the Kelvin sign), independently of
    the others. *)
Theorem case_insensitive_substring_match (s : text) :
  (is_emergency_keyword (VStr s) = Ok true <-> mentions_term s)
  /\ (is_emergency_keyword (VStr s) = Ok false <-> ~ mentions_term s).
Proof.
  rewrite on_string, <- any_word_iff.
  destruct (any _ emergency_words); split; split;
    try discriminate; try reflexivity; try congruence.
Qed.

Lemma send_help_mentions_term : mentions_term (txt "SEND HELP").
Proof.
  exists (txt "help"), (txt "HELP"). split; [vm_compute; tauto|]. split.
  - repeat constructor; vm_compute; tauto.
  - exists (txt "SEND "), []. reflexivity.
Qed.

Lemma case_insensitive_substring_match_witness :
  is_emergency_keyword (VStr (txt "SEND HELP")) = Ok true.
Proof.
  exact (proj2 (proj1 (case_insensitive_substring_match (txt "SEND HELP")))
           send_help_mentions_term).
Defined.

(** C10.  The match knows no word boundary: a vocabulary term inside a
    longer word ([pre] ending and [post] starting with letters) makes the
    keyword stage answer [True], as "help" does in "helpful". *)
Theorem embedded_term_matches (word pre post : text) :
  In word emergency_words ->
  is_emergency_keyword (VStr (pre ++ word ++ post)) = Ok true.
Proof.
  intros Hin. rewrite on_string. f_equal. apply any_word_iff.
  exists word, word. split; [exact Hin|]. split; [apply same_letters_refl|].
  exists pre, post; reflexivity.
Qed.

Lemma embedded_term_matches_witness :
  In (txt "help") emergency_words
  /\ is_emergency_keyword (VStr (txt "helpful")) = Ok true.
Proof.
  split; [vm_compute; tauto|].
  apply (embedded_term_matches (txt "help") [] (txt "ful")). vm_compute. tauto.
Defined.

Example wildfire_matches :
  is_emergency_keyword (VStr (Str.txt "The wildfire smoke is gone")) = Ok true.
Proof. reflexivity. Qed.

Example fire_and_help :
  is_emergency_keyword (VStr (Str.txt "My house is on fire! Help!")) = Ok true.
Proof. reflexivity. Qed.

(** The Kelvin sign is a capital k. *)
Example kelvin_sign_matches :
  is_emergency_keyword (VStr (txt "heart attac" ++ [8490%N])) = Ok true.
Proof. vm_compute. reflexivity. Qed.

Example power_question :
  is_emergency_keyword (VStr (Str.txt "When will the power be back on?")) = Ok false.
Proof. reflexivity. Qed.

End KeywordStage.

(** ** The semantic stage *)

Module SemanticStage.
Import Str StrFacts.

Lemma blank_strip (s : text) :
  all_space s = true -> nonempty (strip s) = false.
Proof. apply all_space_strip. Qed.

Lemma nonblank_strip (s : text) :
  all_space s = false -> nonempty (strip s) = true.
Proof.
  intros H. destruct (nonempty (strip s)) eqn:E; [reflexivity|].
  apply all_space_strip in E. congruence.
Qed.

(** Nothing happens on a blank text. *)
Lemma on_blank (env : Env) (text : PyVal) (w : World) :
  is_blank text = true -> is_emergency_openai env text w = (Ok false, w).
Proof.
  unfold is_emergency_openai, bind, lift, ret.
  destruct text as [| b | n | s]; simpl; try reflexivity.
  intros H. now rewrite (blank_strip s H).
Qed.

(** The four ways a request for a non-blank text can go. *)
Lemma on_text (env : Env) (s : text) (w : World) :
  is_blank (VStr s) = false ->
  is_emergency_openai env (VStr s) w =
    if negb (openai_installed env) then
      (Ok false, with_stdout w (stdout w ++ missing_library_lines))
    else if negb (getenv_truthy (OPENAI_API_KEY env)) then
      (Ok false, with_stdout w (stdout w ++ [missing_key_line]))
    else
      match backend_outcome env w (VStr s) with
      | Ok b => (Ok b, with_requests w (requests w ++ [VStr s]))
      | Raise e =>
          (Ok false,
           with_stdout (with_requests w (requests w ++ [VStr s]))
                       (stdout w ++ [call_error_line e]))
      end.
Proof.
  intros H. simpl in H. apply nonblank_strip in H.
  unfold is_emergency_openai, backend_outcome, import_openai, create,
    bind, try_except, lift, ret, raise, print. simpl. rewrite H. simpl.
  destruct (openai_installed env); simpl.
  - destruct (getenv_truthy (OPENAI_API_KEY env)); simpl; [|reflexivity].
    destruct (chat_completions_create env (length (requests w)) (VStr s))
      as [response|e]; simpl; [|reflexivity].
    destruct (response_label response); reflexivity.
  - unfold with_stdout. simpl. now rewrite <- app_assoc.
Qed.

(** The semantic stage always returns, and leaves the layer alone. *)
Lemma returns (env : Env) (text : PyVal) (w : World) :
  exists b w', is_emergency_openai env text w = (Ok b, w')
               /\ layer w' = layer w /\ edits w' = edits w
               /\ invocations w' = invocations w.
Proof.
  destruct (is_blank text) eqn:Hb.
  - exists false, w. now rewrite on_blank.
  - destruct text as [| b | n | s]; try discriminate Hb.
    rewrite (on_text env s w Hb).
    destruct (openai_installed env); simpl;
      [destruct (getenv_truthy (OPENAI_API_KEY env)); simpl;
       [destruct (backend_outcome env w (VStr s))|]|];
      eexists _, _; (split; [reflexivity|auto]).
Qed.

(** What the answer's first choice is read as. *)
Lemma label_of_answer (label : text) (others : list Choice) :
  response_label
    {| choices := {| message := {| content := VStr label |} |} :: others |}
  = Ok (upper (strip label)).
Proof. reflexivity. Qed.

(** The test on the label, in terms of the label itself. *)
Lemma marker_test (label : text) :
  contains EMERGENCY (upper (strip label)) = true <-> mentions_marker label.
Proof.
  unfold EMERGENCY, mentions_marker. rewrite upper_search. split.
  - intros (body & y & Ho & Hb & Hy). exists body, y.
    split; [|auto]. eapply occurs_in_trans; [exact Ho|apply strip_occurs].
  - intros (body & y & Ho & Hb & Hy). exists body, y. split; [|auto].
    destruct (upper_of_forms body _ Hb marker_body_letters) as [_ Hs].
    destruct (final_y_upper y Hy) as [_ Hsy].
    apply occurs_in_strip; [now destruct body| |exact Ho].
    rewrite forallb_app, Hs. simpl. now rewrite Hsy.
Qed.

(** C6.  On [None], on any value that is not a string, on the empty string
    and on a string of whitespace only ([Str.whitespace]: the ASCII and the
    Unicode whitespace characters), the semantic stage returns [False] and
    the world is exactly as before: no request was sent, nothing was
    printed. *)
Theorem blank_returns_false_without_call (env : Env) (text : PyVal) (w : World) :
  is_blank text = true ->
  is_emergency_openai env text w = (Ok false, w).
Proof. apply on_blank. Qed.

Lemma blank_returns_false_without_call_witness :
  is_blank (VStr [32; 8195; 9; 12288; 10]%N) = true
  /\ is_emergency_openai (Sample.env_answering "EMERGENCY") (VStr [32; 8195; 9; 12288; 10]%N)
       (Sample.world Sample.backlog)
     = (Ok false, Sample.world Sample.backlog).
Proof.
  split; [reflexivity|].
  apply (blank_returns_false_without_call
           (Sample.env_answering "EMERGENCY") (VStr [32; 8195; 9; 12288; 10]%N)
           (Sample.world Sample.backlog)).
  reflexivity.
Defined.

Example none_is_blank : is_blank VNone = true.
Proof. reflexivity. Qed.

Example empty_is_blank : is_blank (VStr []) = true.
Proof. reflexivity. Qed.

(** The em space U+2003 and the ideographic space U+3000 are whitespace. *)
Example unicode_spaces_are_blank :
  is_blank (VStr [8195%N; 32%N; 12288%N; 10%N]) = true
  /\ is_emergency_openai (Sample.env_answering "EMERGENCY")
       (VStr [8195%N; 32%N; 12288%N; 10%N]) (Sample.world Sample.backlog)
     = (Ok false, Sample.world Sample.backlog).
Proof. split; vm_compute; reflexivity. Qed.

End SemanticStage.

(** ** The two-stage pipeline *)

Module Pipeline.
Import Str StrFacts SemanticStage.

Lemma keyword_returns (text : PyVal) : exists b, is_emergency_keyword text = Ok b.
Proof. destruct text; eexists; reflexivity. Qed.

Lemma on_keyword_hit (env : Env) (text : PyVal) (w : World) :
  is_emergency_keyword text = Ok true ->
  multi_stage_analysis env text w = (Ok true, after_keyword_hit w text).
Proof.
  intros H. unfold multi_stage_analysis, bind, spy, lift, print, ret.
  simpl. rewrite H. reflexivity.
Qed.

Lemma on_keyword_miss (env : Env) (text : PyVal) (w : World) :
  is_emergency_keyword text = Ok false ->
  multi_stage_analysis env text w
  = is_emergency_openai env text (after_keyword_miss w text).
Proof.
  intros H. unfold multi_stage_analysis, bind, spy, lift, print, ret.
  simpl. rewrite H. simpl. unfold after_keyword_miss, with_stdout. simpl.
  now rewrite <- app_assoc.
Qed.

(** The pipeline always returns a decision, and leaves the layer alone. *)
Lemma decides (env : Env) (text : PyVal) (w : World) :
  exists b w', multi_stage_analysis env text w = (Ok b, w')
               /\ layer w' = layer w /\ edits w' = edits w.
Proof.
  destruct (keyword_returns text) as [[] H].
  - rewrite (on_keyword_hit env text w H). eauto.
  - rewrite (on_keyword_miss env text w H).
    destruct (returns env text (after_keyword_miss w text))
      as (b & w' & -> & Hl & He & _).
    exists b, w'. auto.
Qed.

(** C5.  When the keyword stage answers [True] the pipeline decides [True]
    there and then: the one classifier call recorded is the keyword call,
    the list of inference requests is as it was, and the record is flagged
    "911_REVIEW". *)
Theorem keyword_hit_skips_semantic_stage (env : Env) (text : PyVal) (w : World) :
  is_emergency_keyword text = Ok true ->
  exists w',
    multi_stage_analysis env text w = (Ok true, w')
    /\ invocations w' = invocations w ++ [CalledKeyword text]
    /\ requests w' = requests w
    /\ stdout w' = stdout w ++ [keyword_found_line]
    /\ flag_of true = "911_REVIEW".
Proof.
  intros H. exists (after_keyword_hit w text).
  rewrite (on_keyword_hit env text w H). auto.
Qed.

Lemma keyword_hit_skips_semantic_stage_witness :
  is_emergency_keyword (VStr (Str.txt "My house is on fire! Help!")) = Ok true
  /\ exists w',
       multi_stage_analysis (Sample.env_answering "OK")
         (VStr (Str.txt "My house is on fire! Help!")) (Sample.world Sample.backlog)
       = (Ok true, w')
       /\ invocations w' = [CalledKeyword (VStr (Str.txt "My house is on fire! Help!"))]
       /\ requests w' = []
       /\ stdout w' = [keyword_found_line]
       /\ flag_of true = "911_REVIEW".
Proof.
  split; [reflexivity|].
  apply (keyword_hit_skips_semantic_stage (Sample.env_answering "OK")
           (VStr (Str.txt "My house is on fire! Help!")) (Sample.world Sample.backlog)).
  reflexivity.
Defined.

(** A genuine negative prints nothing after the hand-over line. *)
Lemma genuine_negative_is_silent (env : Env) (s : text) (w : World) :
  is_emergency_keyword (VStr s) = Ok false ->
  is_blank (VStr s) = false ->
  genuine_negative env w (VStr s) ->
  exists w', multi_stage_analysis env (VStr s) w = (Ok false, w')
             /\ stdout w' = stdout w ++ [no_keywords_line].
Proof.
  intros Hk Hb (Hi & Hkey & Ho). rewrite (on_keyword_miss env _ w Hk).
  rewrite (on_text env s _ Hb), Hi, Hkey. simpl.
  change (backend_outcome env (after_keyword_miss w (VStr s)) (VStr s))
    with (backend_outcome env w (VStr s)).
  rewrite Ho. eexists. split; reflexivity.
Qed.

(** C1, as the code has it.  After a keyword miss, a failed semantic call
    -- library missing, credential missing, transport error or malformed
    answer -- makes the pipeline decide [False], flagged "OK"; no exception
    leaves the pipeline and the layer is untouched.  The failure is reported
    by a line printed on standard output (for a text that is not blank);
    the value handed back is the plain [False]. *)
Theorem failed_call_degrades_to_ok (env : Env) (text : PyVal) (w : World) :
  is_emergency_keyword text = Ok false ->
  semantic_call_fails env w text ->
  exists w',
    multi_stage_analysis env text w = (Ok false, w')
    /\ flag_of false = "OK"
    /\ layer w' = layer w /\ edits w' = edits w
    /\ (is_blank text = false ->
        exists before l after,
          stdout w' = stdout w ++ no_keywords_line :: before ++ l :: after
          /\ failure_line l).
Proof.
  intros Hk Hf. rewrite (on_keyword_miss env text w Hk).
  destruct (is_blank text) eqn:Hb.
  - rewrite on_blank by exact Hb. eexists. repeat split; discriminate.
  - destruct text as [| b | n | s]; try discriminate Hb.
    rewrite (on_text env s _ Hb).
    change (backend_outcome env (after_keyword_miss w (VStr s)) (VStr s))
      with (backend_outcome env w (VStr s)).
    destruct (openai_installed env) eqn:Hi; simpl.
    + destruct (getenv_truthy (OPENAI_API_KEY env)) eqn:Hkey; simpl.
      * destruct Hf as [Hf|[Hf|[e Hf]]]; [congruence|congruence|].
        rewrite Hf. eexists. repeat split. intros _.
        exists [], (call_error_line e), []. simpl.
        rewrite <- app_assoc. split; [reflexivity|].
        right. right. now exists e.
      * eexists. repeat split. intros _.
        exists [], missing_key_line, []. simpl.
        rewrite <- app_assoc. split; [reflexivity|]. right. now left.
    + eexists. repeat split. intros _.
      exists [], (Print "Error: The 'openai' library is required for this function." []),
        [Print "Please run 'pip install openai' to install it." []].
      simpl. rewrite <- app_assoc. split; [reflexivity|]. now left.
Qed.

Lemma failed_call_degrades_to_ok_witness :
  is_emergency_keyword Sample.power_note = Ok false
  /\ semantic_call_fails Sample.env_no_key (Sample.world Sample.backlog) Sample.power_note
  /\ exists w',
       multi_stage_analysis Sample.env_no_key Sample.power_note
         (Sample.world Sample.backlog) = (Ok false, w')
       /\ flag_of false = "OK"
       /\ layer w' = Sample.backlog /\ edits w' = []
       /\ (is_blank Sample.power_note = false ->
           exists before l after,
             stdout w' = [] ++ no_keywords_line :: before ++ l :: after
             /\ failure_line l).
Proof.
  assert (Hf : semantic_call_fails Sample.env_no_key
                 (Sample.world Sample.backlog) Sample.power_note)
    by (right; left; reflexivity).
  split; [reflexivity|]. split; [exact Hf|].
  exact (failed_call_degrades_to_ok Sample.env_no_key Sample.power_note
           (Sample.world Sample.backlog) eq_refl Hf).
Defined.

(** C1, as stated, fails: what the pipeline hands back after a failed call
    is the same [False] as after a genuine negative, so no flag read off it
    can tell the two apart. *)
Lemma no_semantic_call_failed_flag :
  ~ exists flag, semantic_call_failed_flag flag.
Proof.
  intros [flag H].
  destruct (H Sample.env_no_key Sample.power_note (Sample.world Sample.backlog) eq_refl)
    as [Hfail _].
  destruct (H (Sample.env_answering "OK") Sample.power_note
              (Sample.world Sample.backlog) eq_refl) as [_ Hneg].
  assert (E1 : flag (Ok false) = true).
  { apply Hfail. right. left. reflexivity. }
  assert (E2 : flag (Ok false) = false).
  { apply Hneg. repeat split. }
  congruence.
Qed.

Lemma analyze_feature_unfold (env : Env) (feature : Feature) (w : World) :
  analyze_feature env feature w =
    match multi_stage_analysis env (get (attributes feature) NOTES_FIELD)
            (after_header w feature) with
    | (Ok b, w1) =>
        (Ok {| attributes := <[FLAG_FIELD := VStr (txt (flag_of b))]> (attributes feature) |},
         with_stdout w1
           (stdout w1 ++ [Print "  - Analysis Result: {}" [AStr (flag_of b)]]))
    | (Raise e, w1) => (Raise e, w1)
    end.
Proof.
  unfold analyze_feature, bind, print, ret, after_header, with_stdout. simpl.
  rewrite <- app_assoc. simpl.
  match goal with |- context [multi_stage_analysis ?e ?t ?x] =>
    destruct (multi_stage_analysis e t x) as [[b|e'] w1] end; reflexivity.
Qed.

(** The answer of the semantic stage to a well-formed response. *)
Lemma on_label (env : Env) (s : text) (w : World)
    (label : text) (others : list Choice) :
  is_blank (VStr s) = false ->
  openai_installed env = true ->
  getenv_truthy (OPENAI_API_KEY env) = true ->
  chat_completions_create env (length (requests w)) (VStr s)
  = Ok {| choices := {| message := {| content := VStr label |} |} :: others |} ->
  is_emergency_openai env (VStr s) w
  = (Ok (contains EMERGENCY (upper (strip label))),
     with_requests w (requests w ++ [VStr s])).
Proof.
  intros Hb Hi Hk Hc. rewrite (on_text env s w Hb), Hi, Hk. simpl.
  unfold backend_outcome. rewrite Hc. reflexivity.
Qed.

(** C7, as the code has it.  The record is flagged "911_REVIEW" when the
    decision is [True] and "OK" when it is [False], on the local feature and
    on the printed line.  The semantic stage reads the first choice of the
    answer: the label, trimmed and uppercased, is searched for "EMERGENCY",
    so a label yields [True] exactly when it mentions the marker in any
    letter case -- each letter a capital or a small letter, the final Y
    also as U+1E99, whose capital starts with Y -- and [False] otherwise. *)
Theorem labels_of_decisions :
  (forall env feature w,
     exists b w1 feature' w',
       multi_stage_analysis env (get (attributes feature) NOTES_FIELD)
         (after_header w feature) = (Ok b, w1)
       /\ analyze_feature env feature w = (Ok feature', w')
       /\ attributes feature' !! FLAG_FIELD
          = Some (VStr (txt (if b then "911_REVIEW" else "OK")))
       /\ last (stdout w')
          = Some (Print "  - Analysis Result: {}"
                    [AStr (if b then "911_REVIEW" else "OK")]))
  /\ (forall env s w label others,
        is_blank (VStr s) = false ->
        openai_installed env = true ->
        getenv_truthy (OPENAI_API_KEY env) = true ->
        chat_completions_create env (length (requests w)) (VStr s)
        = Ok {| choices := {| message := {| content := VStr label |} |} :: others |} ->
        (fst (is_emergency_openai env (VStr s) w) = Ok true
         <-> mentions_marker label)
        /\ (fst (is_emergency_openai env (VStr s) w) = Ok false
            <-> ~ mentions_marker label)).
Proof.
  split.
  - intros env feature w.
    destruct (decides env (get (attributes feature) NOTES_FIELD)
                (after_header w feature)) as (b & w1 & E & _).
    exists b, w1. rewrite analyze_feature_unfold, E.
    eexists _, _. split; [reflexivity|]. split; [reflexivity|]. simpl. split.
    + rewrite lookup_insert_eq. now destruct b.
    + rewrite last_snoc. now destruct b.
  - intros env s w label others Hb Hi Hk Hc.
    rewrite (on_label env s w label others Hb Hi Hk Hc). simpl.
    rewrite <- marker_test.
    destruct (contains EMERGENCY (upper (strip label))); split; split;
      try discriminate; try reflexivity; try congruence.
Qed.

Lemma labels_of_decisions_witness :
  fst (is_emergency_openai (Sample.env_answering "Emergency!") Sample.power_note
         (Sample.world Sample.backlog)) = Ok true
  <-> mentions_marker (txt "Emergency!").
Proof.
  apply (proj2 labels_of_decisions (Sample.env_answering "Emergency!")
           (txt "When will the power be back on?") (Sample.world Sample.backlog)
           (txt "Emergency!") []);
    reflexivity.
Defined.

(** C7, as stated, fails on a label in another letter case: "emergency"
    does not contain the marker "EMERGENCY", and the semantic stage answers
    [True] on it. *)
Lemma lowercase_label_is_emergency :
  contains EMERGENCY (txt "emergency") = false
  /\ fst (is_emergency_openai (Sample.env_answering "emergency") Sample.power_note
            (Sample.world Sample.backlog)) = Ok true.
Proof. split; reflexivity. Qed.

(** The capital of U+1E99 is Y followed by the combining ring, so a label
    that ends in it reads EMERGENCY once uppercased. *)
Example ringed_y_label_is_emergency :
  fst (is_emergency_openai
         (Sample.env_answering_text (txt "emergenc" ++ [7833%N]))
         Sample.power_note (Sample.world Sample.backlog)) = Ok true
  /\ mentions_marker (txt "emergenc" ++ [7833%N]).
Proof.
  split; [vm_compute; reflexivity|].
  exists (txt "emergenc"), 7833%N. split; [exists [], []; reflexivity|].
  split; [repeat constructor; vm_compute; tauto|vm_compute; tauto].
Qed.

End Pipeline.

(** ** The batch run *)

Module Orchestrator.
Import Pipeline.

Lemma failed_side (l : list UpdateResult) :
  snd (List.partition succeeded l) = List.filter (fun r => negb (succeeded r)) l.
Proof.
  induction l as [|r l IH]; simpl; [reflexivity|].
  destruct (List.partition succeeded l) as [ok failed]. simpl in IH.
  destruct (succeeded r); simpl; now rewrite IH.
Qed.

Lemma failures_of_report (result : EditResponse) :
  failures (batch_report_spec result)
  = map (fun r => (objectId r, error r))
      (List.filter (fun r => negb (succeeded r)) (default [] (updateResults result)))
  /\ failed_count (batch_report_spec result)
     = length (List.filter (fun r => negb (succeeded r))
                 (default [] (updateResults result))).
Proof.
  unfold batch_report_spec.
  rewrite <- failed_side.
  destruct (List.partition succeeded (default [] (updateResults result))).
  split; reflexivity.
Qed.

Lemma report_prints (result : EditResponse) (w : World) :
  report_update_results result w
  = (Ok tt, with_stdout w (stdout w ++ update_report_lines result)).
Proof.
  unfold report_update_results, update_report_lines, bind, print, with_stdout.
  simpl. destruct (nonempty (update_errors result)); simpl;
    now rewrite <- app_assoc.
Qed.

(** C2, as the code has it.  For every answer of the service, step 6 prints
    the answer as it came and then either the list of the error reasons of
    the results that did not succeed, in the order of the answer, or the
    line that all features were updated; the second exactly when no result
    failed.  The list has one reason per failed result; the successes are
    not collected, no count is computed and the list names no record. *)
Theorem update_errors_are_failure_reasons (result : EditResponse) (w : World) :
  report_update_results result w
  = (Ok tt, with_stdout w (stdout w ++ update_report_lines result))
  /\ update_errors result = map snd (failures (batch_report_spec result))
  /\ length (update_errors result) = failed_count (batch_report_spec result)
  /\ (nonempty (update_errors result) = false
      <-> failed_count (batch_report_spec result) = 0).
Proof.
  destruct (failures_of_report result) as [Hf Hc].
  assert (Hu : update_errors result = map snd (failures (batch_report_spec result))).
  { rewrite Hf. unfold update_errors. rewrite map_map. reflexivity. }
  assert (Hl : length (update_errors result) = failed_count (batch_report_spec result)).
  { rewrite Hc. unfold update_errors. now rewrite length_map. }
  split; [|split; [exact Hu|split; [exact Hl|]]].
  - apply report_prints.
  - rewrite <- Hl. destruct (update_errors result); simpl; split;
      congruence.
Qed.

(** C2, as stated, fails: two answers with different numbers of successes
    and different failed records lead to the same list of errors, hence to
    the same line after the echo of the answer. *)
Lemma error_list_forgets_counts_and_records :
  update_errors Sample.partial_failure = update_errors Sample.lone_failure
  /\ update_errors Sample.partial_failure = [Some Sample.locked]
  /\ succeeded_count (batch_report_spec Sample.partial_failure) = 1
  /\ succeeded_count (batch_report_spec Sample.lone_failure) = 0
  /\ map fst (failures (batch_report_spec Sample.partial_failure)) = [Some 2%Z]
  /\ map fst (failures (batch_report_spec Sample.lone_failure)) = [Some 7%Z]
  /\ tail (update_report_lines Sample.partial_failure)
     = tail (update_report_lines Sample.lone_failure).
Proof. repeat split. Qed.

Lemma calm_refl (w : World) : calm w w.
Proof. repeat split. Qed.

Lemma calm_trans (w1 w2 w3 : World) : calm w1 w2 -> calm w2 w3 -> calm w1 w3.
Proof. unfold calm. intros (? & ? & ? & ?) (? & ? & ? & ?). repeat split; congruence. Qed.

Lemma calm_print (w : World) (ls : list Line) : calm w (with_stdout w ls).
Proof. repeat split. Qed.

(** One turn of the loop: it returns, and the layer and the batches
    submitted are what they were. *)
Lemma analyze_feature_frame (env : Env) (feature : Feature) (w : World) :
  exists feature' w',
    analyze_feature env feature w = (Ok feature', w')
    /\ layer w' = layer w /\ edits w' = edits w.
Proof.
  rewrite analyze_feature_unfold.
  destruct (decides env (get (attributes feature) NOTES_FIELD)
              (after_header w feature)) as (b & w1 & -> & Hl & He).
  eexists _, _. split; [reflexivity|]. simpl. split; [exact Hl|exact He].
Qed.

Lemma loop_frame (env : Env) (features updates : list Feature) (w : World) :
  exists ups w',
    analyze_and_prepare_updates env features updates w = (Ok ups, w')
    /\ layer w' = layer w /\ edits w' = edits w
    /\ length ups = length updates + length features.
Proof.
  revert updates w. induction features as [|f features IH]; intros updates w.
  - exists updates, w. simpl. unfold ret. repeat split. lia.
  - simpl. unfold bind.
    destruct (analyze_feature_frame env f w) as (f' & w1 & -> & Hl & He).
    destruct (IH (updates ++ [f']) w1) as (ups & w' & -> & Hl' & He' & Hn).
    exists ups, w'. repeat split; try congruence.
    rewrite Hn, length_app. simpl. lia.
Qed.

Lemma loop_app (env : Env) (processed rest updates : list Feature) (w : World) :
  analyze_and_prepare_updates env (processed ++ rest) updates w
  = match analyze_and_prepare_updates env processed updates w with
    | (Ok ups, w1) => analyze_and_prepare_updates env rest ups w1
    | (Raise e, w1) => (Raise e, w1)
    end.
Proof.
  revert updates w. induction processed as [|f processed IH]; intros updates w.
  - reflexivity.
  - simpl. unfold bind. destruct (analyze_feature env f w) as [[f'|e] w1];
      [apply IH|reflexivity].
Qed.

Ltac calm_by_computation := unfold calm; simpl; repeat split; reflexivity.

(** Step 1 returns, touches nothing but standard output, and says
    whether the login went through. *)
Lemma connect_spec (env : Env) (w : World) :
  exists b w',
    connect env w = (Ok b, w') /\ layer w' = layer w /\ calm w w'
    /\ (b = true <-> exists portal, gis_login env = Ok portal).
Proof.
  unfold connect, bind, try_except, lift, print, ret.
  destruct (gis_login env) as [portal|e];
    destruct (getenv_truthy (ARCGIS_CLIENT_ID env) && getenv_truthy (ARCGIS_CLIENT_SECRET env));
    try destruct (getenv_truthy (ARCGIS_USERNAME env) && getenv_truthy (ARCGIS_PASSWORD env));
    simpl; eexists _, _; (split; [reflexivity|]); (split; [reflexivity|]);
    (split; [calm_by_computation|]); split; eauto; try discriminate;
    intros [? ?]; discriminate.
Qed.

Lemma access_layer_spec (env : Env) (w : World) :
  exists b w',
    access_layer env w = (Ok b, w') /\ layer w' = layer w /\ calm w w'
    /\ (b = true <-> exists name, layer_open env = Ok name).
Proof.
  unfold access_layer.
  replace (Str.contains (Str.txt "PASTE_YOUR_FEATURE_LAYER_URL_HERE")
             (Str.txt FEATURE_LAYER_URL))
    with false by (vm_compute; reflexivity).
  unfold bind, try_except, lift, print, ret.
  destruct (layer_open env) as [name|e]; simpl;
    eexists _, _; (split; [reflexivity|]); (split; [reflexivity|]);
    (split; [calm_by_computation|]); split; eauto; try discriminate;
    intros [? ?]; discriminate.
Qed.

Lemma ensure_flag_field_spec (env : Env) (w : World) :
  exists b w',
    ensure_flag_field env w = (Ok b, w') /\ calm w w'
    /\ (b = true <-> FLAG_FIELD ∈ fields (layer w)
                     \/ add_to_definition_fault env = None).
Proof.
  unfold ensure_flag_field, bind, try_except, get_fields, add_to_definition,
    print, ret. simpl.
  destruct (bool_decide (FLAG_FIELD ∈ fields (layer w))) eqn:Hin; simpl.
  - apply bool_decide_eq_true in Hin.
    eexists _, _. split; [reflexivity|]. split; [calm_by_computation|]. tauto.
  - apply bool_decide_eq_false in Hin.
    destruct (add_to_definition_fault env) as [e|]; simpl;
      eexists _, _; (split; [reflexivity|]); (split; [calm_by_computation|]);
      split; auto; try discriminate.
    intros [H|H]; [contradiction|discriminate].
Qed.

(** Step 6 returns; it submits one batch when there is something to
    submit, and nothing otherwise. *)
Lemma apply_updates_spec (env : Env) (updates : list Feature) (w : World) :
  exists w',
    apply_updates env updates w = (Ok tt, w')
    /\ invocations w' = invocations w /\ requests w' = requests w
    /\ ((updates = [] /\ layer w' = layer w /\ edits w' = edits w)
        \/ (updates <> []
            /\ edits w' = edits w ++ [updates]
            /\ layer w' = snd (edit_features_service env (layer w) updates))).
Proof.
  unfold apply_updates. destruct updates as [|u updates]; simpl.
  - eexists. split; [reflexivity|]. repeat split. left. repeat split.
  - unfold bind, try_except, edit_features, print. simpl.
    destruct (edit_features_service env (layer w) (u :: updates)) as [[r|e] l];
      rewrite ?report_prints; simpl; eexists; (split; [reflexivity|]); repeat split;
      right; repeat split; discriminate.
Qed.

Lemma nothing_unprocessed (l : Layer) :
  all_terminal l -> List.filter unprocessed (rows l) = [].
Proof.
  unfold all_terminal. induction (rows l) as [|f fs IH]; intros H; simpl.
  - reflexivity.
  - rewrite (H f) by now left. apply IH. intros g Hg. apply H. now right.
Qed.

(** The features the query hands to the loop. *)
Lemma query_and_process_unfold (env : Env) (w : World) :
  query_and_process env w =
    let w1 := with_stdout w
                (stdout w ++ [Print "\nQuerying for new submissions with: {}"
                                [AStr query_clause]]) in
    match query_fault env with
    | Some e =>
        (Ok tt,
         with_stdout w1
           (stdout w1 ++ [Print "Failed to query features. Please check your field names. Error: {}" [AExn e]]))
    | None =>
        let features_to_process :=
          map (select out_fields) (List.filter unprocessed (rows (layer w))) in
        let w2 := with_stdout w1
                    (stdout w1 ++ [Print "Found {} new feature(s) to analyze."
                                     [ANat (length features_to_process)]]) in
        if nonempty features_to_process then
          (updates <- analyze_and_prepare_updates env features_to_process [] ;;
           apply_updates env updates ;;;
           print "\n--- Script finished ---" []) w2
        else
          (Ok tt, with_stdout w2 (stdout w2 ++ [nothing_to_do_line]))
    end.
Proof.
  unfold query_and_process, layer_query.
  unfold bind at 1 2 3, try_except, print at 1 2 3, ret. simpl.
  destruct (query_fault env) as [e|]; simpl; [reflexivity|].
  destruct (map (select out_fields) (List.filter unprocessed (rows (layer w))));
    reflexivity.
Qed.

Lemma query_and_process_commits (env : Env) (w : World) :
  exists w',
    query_and_process env w = (Ok tt, w') /\ committed_once_or_never env w w'.
Proof.
  rewrite query_and_process_unfold. cbv zeta.
  destruct (query_fault env) as [e|].
  { eexists. split; [reflexivity|]. left. split; reflexivity. }
  destruct (nonempty _) eqn:Hne.
  2:{ eexists. split; [reflexivity|]. left. split; reflexivity. }
  unfold bind.
  match goal with |- context [analyze_and_prepare_updates env ?fs [] ?x] =>
    destruct (loop_frame env fs [] x) as (ups & w1 & -> & Hl & He & Hn) end.
  destruct (apply_updates_spec env ups w1) as (w2 & -> & _ & _ & Hc).
  unfold print. eexists. split; [reflexivity|]. simpl in Hl, He |- *.
  destruct Hc as [(_ & Hl2 & He2)|(Hu & He2 & Hl2)].
  - left. unfold with_stdout. simpl. split; congruence.
  - right. exists (layer w1), ups. unfold with_stdout. simpl.
    repeat split; congruence.
Qed.

Lemma query_and_process_idle (env : Env) (w : World) :
  all_terminal (layer w) ->
  exists w',
    query_and_process env w = (Ok tt, w') /\ calm w w' /\ layer w' = layer w
    /\ (query_fault env = None -> last (stdout w') = Some nothing_to_do_line).
Proof.
  intros H. rewrite query_and_process_unfold, (nothing_unprocessed _ H). cbv zeta.
  destruct (query_fault env) as [e|]; simpl;
    eexists; (split; [reflexivity|]); (split; [calm_by_computation|]);
    (split; [reflexivity|]); intros E; try discriminate E.
  simpl. now rewrite last_snoc.
Qed.

(** Steps 1 to 3 either stop the run or hand over to step 4; either way
    only standard output and the schema have changed. *)
Lemma main_cases (env : Env) (w : World) :
  exists w0,
    calm w w0
    /\ ((main env w = (Ok tt, w0) /\ ~ setup_succeeds env w)
        \/ (setup_succeeds env w /\ main env w = query_and_process env w0)).
Proof.
  unfold setup_succeeds.
  remember (main env w) as m eqn:Hm.
  unfold main, bind, print at 1 in Hm.
  match type of Hm with context [connect env ?x] =>
    destruct (connect_spec env x) as (b1 & w1 & E1 & L1 & C1 & B1) end.
  rewrite E1 in Hm. simpl in L1.
  assert (C1' : calm w w1) by (eapply calm_trans; [|exact C1]; calm_by_computation).
  destruct b1; simpl in Hm.
  2:{ exists w1. split; [exact C1'|]. left. split; [exact Hm|].
      intros (H & _). apply B1 in H. discriminate. }
  destruct (access_layer_spec env w1) as (b2 & w2 & E2 & L2 & C2 & B2).
  rewrite E2 in Hm.
  destruct b2; simpl in Hm.
  2:{ exists w2. split; [eapply calm_trans; eassumption|]. left.
      split; [exact Hm|]. intros (_ & H & _). apply B2 in H. discriminate. }
  destruct (ensure_flag_field_spec env w2) as (b3 & w3 & E3 & C3 & B3).
  rewrite E3 in Hm. rewrite L2, L1 in B3.
  exists w3. split; [eapply calm_trans; [|exact C3]; eapply calm_trans; eassumption|].
  destruct b3; simpl in Hm.
  - right. split; [|exact Hm].
    split; [now apply B1|]. split; [now apply B2|now apply B3].
  - left. split; [exact Hm|]. intros (_ & _ & H). apply B3 in H. discriminate.
Qed.

Lemma all_terminal_calm (w w' : World) :
  calm w w' -> all_terminal (layer w) -> all_terminal (layer w').
Proof. intros (Hr & _) H. unfold all_terminal. now rewrite Hr. Qed.

(** C8.  On a layer none of whose rows awaits processing, a run returns
    normally and neither classifier is called, no inference request is
    sent, no batch is submitted and the rows are what they were; when the
    connection, the schema check and the query go through, the last line
    printed is "No new submissions to process. Exiting.".  A second run
    right after a run that flagged every row is such a run. *)
Theorem nothing_to_do_on_terminal_layer (env : Env) (w : World) :
  all_terminal (layer w) ->
  exists w',
    main env w = (Ok tt, w')
    /\ rows (layer w') = rows (layer w)
    /\ edits w' = edits w
    /\ invocations w' = invocations w
    /\ requests w' = requests w
    /\ (setup_succeeds env w -> query_fault env = None ->
        last (stdout w') = Some nothing_to_do_line).
Proof.
  intros H. destruct (main_cases env w) as (w0 & C0 & [(E & Hn)|(Hs & E)]).
  - exists w0. split; [exact E|]. destruct C0 as (? & ? & ? & ?).
    repeat split; try assumption. intros Hs. contradiction.
  - destruct (query_and_process_idle env w0 (all_terminal_calm w w0 C0 H))
      as (w' & Eq & C & _ & Hlast).
    exists w'. split; [congruence|].
    destruct (calm_trans _ _ _ C0 C) as (? & ? & ? & ?).
    repeat split; try assumption. intros _. exact Hlast.
Qed.

Lemma triaged_is_terminal : all_terminal (layer (Sample.world Sample.triaged)).
Proof. intros f [<-|[<-|[]]]; reflexivity. Qed.

Lemma nothing_to_do_on_terminal_layer_witness :
  all_terminal (layer (Sample.world Sample.triaged))
  /\ exists w',
       main (Sample.env_answering "EMERGENCY") (Sample.world Sample.triaged)
       = (Ok tt, w')
       /\ rows (layer w') = rows Sample.triaged
       /\ edits w' = []
       /\ invocations w' = []
       /\ requests w' = []
       /\ (setup_succeeds (Sample.env_answering "EMERGENCY")
             (Sample.world Sample.triaged) ->
           query_fault (Sample.env_answering "EMERGENCY") = None ->
           last (stdout w') = Some nothing_to_do_line).
Proof.
  split; [exact triaged_is_terminal|].
  exact (nothing_to_do_on_terminal_layer (Sample.env_answering "EMERGENCY")
           (Sample.world Sample.triaged) triaged_is_terminal).
Defined.

Example second_run_says_nothing_to_do :
  last (stdout (snd (main (Sample.env_answering "EMERGENCY")
                       (Sample.world Sample.triaged))))
  = Some nothing_to_do_line.
Proof. vm_compute. reflexivity. Qed.

(** C9.  However many records the loop has gone through, the layer is what
    it was and no batch has been submitted: the flags sit in the local list
    of updates, and the loop on the whole list goes on from there.  Over a
    whole run the layer is either untouched or what the service made of it
    at the one batch submitted at the end. *)
Theorem layer_changes_only_at_commit :
  (forall env processed rest updates w,
     exists ups w1,
       analyze_and_prepare_updates env processed updates w = (Ok ups, w1)
       /\ layer w1 = layer w
       /\ edits w1 = edits w
       /\ length ups = length updates + length processed
       /\ analyze_and_prepare_updates env (processed ++ rest) updates w
          = analyze_and_prepare_updates env rest ups w1)
  /\ (forall env w,
        exists w', main env w = (Ok tt, w')
                   /\ committed_once_or_never env w w').
Proof.
  split.
  - intros env processed rest updates w.
    destruct (loop_frame env processed updates w) as (ups & w1 & E & Hl & He & Hn).
    exists ups, w1. rewrite loop_app, E. auto.
  - intros env w.
    destruct (main_cases env w) as (w0 & (Hr & He & _) & [(E & _)|(_ & E)]).
    + exists w0. split; [exact E|]. left. auto.
    + destruct (query_and_process_commits env w0) as (w' & Eq & Hc).
      exists w'. split; [congruence|].
      destruct Hc as [(Hr' & He')|(l & ups & Hl & Hu & He' & Hl')].
      * left. split; congruence.
      * right. exists l, ups. repeat split; congruence.
Qed.

Example backlog_run_commits_once :
  map (fun f => attributes f !! FLAG_FIELD)
      (concat (edits (snd (main (Sample.env_answering "OK")
                             (Sample.world Sample.backlog)))))
  = [Some (VStr (Str.txt "911_REVIEW")); Some (VStr (Str.txt "OK"))]
  /\ layer (snd (main (Sample.env_answering "OK") (Sample.world Sample.backlog)))
     = Sample.backlog.
Proof. vm_compute. split; reflexivity. Qed.

End Orchestrator.

(** ** Further properties of the two stages *)

Module StageFacts.
Import Str StrFacts KeywordStage SemanticStage Pipeline.

(** X1.  More text never takes a keyword hit away: a text in which a flagged
    text occurs is flagged too. *)
Theorem keyword_hit_survives_more_text (s t : text) :
  occurs_in s t ->
  is_emergency_keyword (VStr s) = Ok true ->
  is_emergency_keyword (VStr t) = Ok true.
Proof.
  intros Hst. rewrite !on_string. intros H. f_equal.
  injection H as H. apply any_word_iff in H as (word & u & Hin & Hu & Hus).
  apply any_word_iff. exists word, u. split; [exact Hin|]. split; [exact Hu|].
  eapply occurs_in_trans; eassumption.
Qed.

Lemma keyword_hit_survives_more_text_witness :
  occurs_in (txt "Fire") (txt "PS: Fire at the dock, thanks")
  /\ is_emergency_keyword (VStr (txt "PS: Fire at the dock, thanks")) = Ok true.
Proof.
  assert (H : occurs_in (txt "Fire") (txt "PS: Fire at the dock, thanks"))
    by (exists (txt "PS: "), (txt " at the dock, thanks"); reflexivity).
  split; [exact H|].
  exact (keyword_hit_survives_more_text (txt "Fire")
           (txt "PS: Fire at the dock, thanks") H eq_refl).
Defined.

Lemma label_shape (response : ChatCompletion) (label : text) :
  response_label response = Ok label ->
  exists raw others,
    response = {| choices := {| message := {| content := VStr raw |} |} :: others |}
    /\ label = upper (strip raw).
Proof.
  destruct response as [[|[[c]] others]]; [discriminate|].
  unfold response_label. simpl. destruct c as [| b | n | raw]; try discriminate.
  simpl. intros H. injection H as <-. now exists raw, others.
Qed.

Lemma true_answer_inv (env : Env) (text : PyVal) (w w' : World) :
  is_emergency_openai env text w = (Ok true, w') ->
  exists s raw others,
    text = VStr s
    /\ is_blank text = false
    /\ configured env = true
    /\ chat_completions_create env (length (requests w)) text
       = Ok {| choices := {| message := {| content := VStr raw |} |} :: others |}
    /\ mentions_marker raw
    /\ requests w' = requests w ++ [text].
Proof.
  intros H. destruct (is_blank text) eqn:Hb.
  { rewrite on_blank in H by exact Hb. discriminate. }
  destruct text as [| b | n | s]; try discriminate Hb.
  rewrite (on_text env s w Hb) in H. unfold configured.
  destruct (openai_installed env); [|discriminate].
  destruct (getenv_truthy (OPENAI_API_KEY env)); [|discriminate].
  simpl in H. unfold backend_outcome in H.
  destruct (chat_completions_create env (length (requests w)) (VStr s))
    as [response|e]; [|discriminate].
  simpl in H. destruct (response_label response) as [label|e] eqn:Hl;
    [|discriminate].
  simpl in H. injection H as Hc <-.
  destruct (label_shape response label Hl) as (raw & others & -> & ->).
  exists s, raw, others. repeat split. now apply marker_test.
Qed.

(** X2.  The semantic stage answers [True] only on evidence: the text is a
    non-blank string, library and credential are there, the request went
    out with the text as it is, and the first choice of the answer mentions
    the marker. *)
Theorem semantic_true_needs_marker (env : Env) (text : PyVal) (w w' : World) :
  is_emergency_openai env text w = (Ok true, w') ->
  exists s raw others,
    text = VStr s
    /\ is_blank text = false
    /\ configured env = true
    /\ chat_completions_create env (length (requests w)) text
       = Ok {| choices := {| message := {| content := VStr raw |} |} :: others |}
    /\ mentions_marker raw
    /\ requests w' = requests w ++ [text].
Proof. apply true_answer_inv. Qed.

Lemma semantic_true_needs_marker_witness :
  exists s raw others,
    Sample.power_note = VStr s
    /\ is_blank Sample.power_note = false
    /\ configured (Sample.env_answering " emergency ") = true
    /\ chat_completions_create (Sample.env_answering " emergency ")
         (length (requests (Sample.world Sample.backlog))) Sample.power_note
       = Ok {| choices := {| message := {| content := VStr raw |} |} :: others |}
    /\ mentions_marker raw
    /\ requests (with_requests (Sample.world Sample.backlog) [Sample.power_note])
       = requests (Sample.world Sample.backlog) ++ [Sample.power_note].
Proof.
  exact (semantic_true_needs_marker (Sample.env_answering " emergency ")
           Sample.power_note (Sample.world Sample.backlog)
           (with_requests (Sample.world Sample.backlog) [Sample.power_note])
           eq_refl).
Defined.

(** X3.  An answer without choices, or whose first choice carries no text, is
    read as [False]: the [IndexError] or [AttributeError] is caught and
    printed, after the request was sent. *)
Theorem malformed_answer_is_false (env : Env) (s : text) (w : World)
    (response : ChatCompletion) :
  is_blank (VStr s) = false ->
  configured env = true ->
  chat_completions_create env (length (requests w)) (VStr s) = Ok response ->
  (choices response = [] ->
   is_emergency_openai env (VStr s) w
   = (Ok false,
      with_stdout (with_requests w (requests w ++ [VStr s]))
        (stdout w ++ [call_error_line IndexError])))
  /\ (forall c others,
        choices response = c :: others ->
        isinstance_str (content (message c)) = false ->
        is_emergency_openai env (VStr s) w
        = (Ok false,
           with_stdout (with_requests w (requests w ++ [VStr s]))
             (stdout w ++ [call_error_line AttributeError]))).
Proof.
  intros Hb Hc Hr. unfold configured in Hc.
  apply andb_true_iff in Hc as [Hi Hk].
  rewrite (on_text env s w Hb), Hi, Hk. simpl.
  unfold backend_outcome. rewrite Hr. simpl. unfold response_label. split.
  - intros ->. reflexivity.
  - intros c others -> Hn. simpl.
    destruct (content (message c)); try discriminate Hn; reflexivity.
Qed.

Lemma malformed_answer_is_false_witness :
  is_emergency_openai env_empty_answer Sample.power_note (Sample.world Sample.backlog)
  = (Ok false,
     with_stdout (with_requests (Sample.world Sample.backlog) [Sample.power_note])
       [call_error_line IndexError]).
Proof.
  exact (proj1 (malformed_answer_is_false env_empty_answer
                  (txt "When will the power be back on?") (Sample.world Sample.backlog)
                  {| choices := [] |} eq_refl eq_refl eq_refl) eq_refl).
Defined.

End StageFacts.

(** ** Further properties of the batch run *)

Module BatchFacts.
Import Str StrFacts KeywordStage SemanticStage Pipeline Orchestrator.












Lemma keyword_true_inv (text : PyVal) :
  is_emergency_keyword text = Ok true ->
  exists s, text = VStr s /\ mentions_term s.
Proof.
  destruct text as [| b | n | s]; try discriminate.
  rewrite on_string. intros H. injection H as H.
  exists s. split; [reflexivity|]. now apply any_word_iff.
Qed.




(** X8.  A record is flagged "911_REVIEW" only on evidence: its note is a string
    that mentions a vocabulary term, or the backend, configured, answered
    the request for it with a label that mentions the marker. *)
Theorem review_flag_needs_evidence (env : Env) (f u : Feature) (w w' : World) :
  analyze_feature env f w = (Ok u, w') ->
  attributes u !! FLAG_FIELD = Some (VStr (Str.txt "911_REVIEW")) ->
  exists s,
    note_of f = VStr s
    /\ (mentions_term s
        \/ exists raw others,
             configured env = true
             /\ chat_completions_create env (length (requests w)) (VStr s)
                = Ok {| choices := {| message := {| content := VStr raw |} |} :: others |}
             /\ mentions_marker raw).
Proof.
  rewrite analyze_feature_unfold. fold (note_of f).
  destruct (keyword_returns (note_of f)) as [[] Hk].
  - intros _ _. destruct (keyword_true_inv _ Hk) as (s & Hs & Hm).
    exists s. auto.
  - rewrite (on_keyword_miss env _ _ Hk).
    destruct (is_emergency_openai env (note_of f)
                (after_keyword_miss (after_header w f) (note_of f)))
      as [[b|e] w1] eqn:E; [|discriminate].
    intros H. injection H as <- _. simpl. rewrite lookup_insert_eq.
    destruct b; [intros _|discriminate].
    destruct (StageFacts.true_answer_inv _ _ _ _ E)
      as (s & raw & others & Hs & _ & Hc & Hr & Hm & _).
    exists s. split; [exact Hs|]. right. exists raw, others.
    rewrite <- Hs. auto.
Qed.

Lemma review_flag_needs_evidence_witness :
  exists s,
    note_of (Sample.feature 2 Sample.power_note None) = VStr s
    /\ (mentions_term s
        \/ exists raw others,
             configured (Sample.env_answering "EMERGENCY") = true
             /\ chat_completions_create (Sample.env_answering "EMERGENCY")
                  (length (requests (Sample.world Sample.backlog))) (VStr s)
                = Ok {| choices := {| message := {| content := VStr raw |} |} :: others |}
             /\ mentions_marker raw).
Proof.
  exact (review_flag_needs_evidence (Sample.env_answering "EMERGENCY")
           (Sample.feature 2 Sample.power_note None)
           (fst_ok_feature (Sample.env_answering "EMERGENCY")
              (Sample.feature 2 Sample.power_note None) (Sample.world Sample.backlog))
           (Sample.world Sample.backlog)
           (snd (analyze_feature (Sample.env_answering "EMERGENCY")
                   (Sample.feature 2 Sample.power_note None)
                   (Sample.world Sample.backlog)))
           eq_refl eq_refl).
Defined.

End BatchFacts.

(** ** Further properties of a whole run *)

Module RunFacts.
Import Pipeline Orchestrator BatchFacts.

(** What step 3 does to the layer. *)
Lemma ensure_flag_field_layer (env : Env) (w : World) :
  exists b w',
    ensure_flag_field env w = (Ok b, w')
    /\ calm w w'
    /\ (b = true <-> FLAG_FIELD ∈ fields (layer w)
                     \/ add_to_definition_fault env = None)
    /\ (FLAG_FIELD ∈ fields (layer w) \/ b = false -> layer w' = layer w)
    /\ (FLAG_FIELD ∉ fields (layer w) -> b = true ->
        fields (layer w') = fields (layer w) ++ [FLAG_FIELD]).
Proof.
  unfold ensure_flag_field, bind, try_except, get_fields, add_to_definition,
    print, ret. simpl.
  destruct (bool_decide (FLAG_FIELD ∈ fields (layer w))) eqn:Hin; simpl.
  - apply bool_decide_eq_true in Hin.
    eexists _, _. split; [reflexivity|]. split; [calm_by_computation|].
    split; [tauto|]. split; [reflexivity|]. intros H. contradiction.
  - apply bool_decide_eq_false in Hin.
    destruct (add_to_definition_fault env) as [e|]; simpl;
      eexists _, _; (split; [reflexivity|]); (split; [calm_by_computation|]).
    + split; [split; [discriminate|intros [H|H]; [contradiction|discriminate]]|].
      split; [reflexivity|]. discriminate.
    + split; [split; auto|]. split; [|reflexivity].
      intros [H|H]; [contradiction|discriminate].
Qed.

(** X9.  Step 3 only ever appends the flag field, leaves the rows alone, and
    need not be repeated: once it has succeeded the field is in the schema,
    and a second pass succeeds without touching the layer. *)
Theorem ensure_flag_field_is_idempotent (env : Env) (w w1 : World) :
  ensure_flag_field env w = (Ok true, w1) ->
  FLAG_FIELD ∈ fields (layer w1)
  /\ rows (layer w1) = rows (layer w)
  /\ (fields (layer w1) = fields (layer w)
      \/ fields (layer w1) = fields (layer w) ++ [FLAG_FIELD])
  /\ exists w2, ensure_flag_field env w1 = (Ok true, w2) /\ layer w2 = layer w1.
Proof.
  intros E.
  destruct (ensure_flag_field_layer env w) as (b & w' & E' & (Hr & _) & _ & Hsame & Hadd).
  rewrite E in E'. injection E' as <- <-.
  assert (Hin : FLAG_FIELD ∈ fields (layer w1)).
  { destruct (decide (FLAG_FIELD ∈ fields (layer w))) as [H|H].
    - rewrite Hsame by auto. exact H.
    - rewrite Hadd by auto. apply elem_of_app. right. now constructor. }
  split; [exact Hin|]. split; [exact Hr|]. split.
  - destruct (decide (FLAG_FIELD ∈ fields (layer w))) as [H|H].
    + left. now rewrite Hsame by auto.
    + right. now apply Hadd.
  - destruct (ensure_flag_field_layer env w1) as (b2 & w2 & E2 & _ & Hb & Hsame2 & _).
    assert (b2 = true) as -> by (apply Hb; now left).
    exists w2. split; [exact E2|]. apply Hsame2. now left.
Qed.

Lemma ensure_flag_field_is_idempotent_witness :
  FLAG_FIELD ∈ fields (layer (snd (ensure_flag_field (Sample.env_answering "OK")
                                     (Sample.world fresh_layer))))
  /\ rows (layer (snd (ensure_flag_field (Sample.env_answering "OK")
                         (Sample.world fresh_layer))))
     = rows (layer (Sample.world fresh_layer))
  /\ (fields (layer (snd (ensure_flag_field (Sample.env_answering "OK")
                            (Sample.world fresh_layer))))
      = fields (layer (Sample.world fresh_layer))
      \/ fields (layer (snd (ensure_flag_field (Sample.env_answering "OK")
                               (Sample.world fresh_layer))))
         = fields (layer (Sample.world fresh_layer)) ++ [FLAG_FIELD])
  /\ exists w2,
       ensure_flag_field (Sample.env_answering "OK")
         (snd (ensure_flag_field (Sample.env_answering "OK")
                 (Sample.world fresh_layer)))
       = (Ok true, w2)
       /\ layer w2 = layer (snd (ensure_flag_field (Sample.env_answering "OK")
                                   (Sample.world fresh_layer))).
Proof.
  exact (ensure_flag_field_is_idempotent (Sample.env_answering "OK")
           (Sample.world fresh_layer)
           (snd (ensure_flag_field (Sample.env_answering "OK")
                   (Sample.world fresh_layer)))
           eq_refl).
Defined.

(** X10.  When the connection, the opening of the layer or the adding of the flag
    field fails, the run ends there, normally: the layer, schema included,
    is as it was, nothing was queried or classified, and nothing was sent
    to the backend or to the layer. *)
Theorem setup_failure_ends_the_run (env : Env) (w : World) :
  ~ setup_succeeds env w ->
  exists w',
    main env w = (Ok tt, w')
    /\ layer w' = layer w
    /\ edits w' = edits w
    /\ invocations w' = invocations w
    /\ requests w' = requests w.
Proof.
  intros Hn. unfold setup_succeeds in Hn.
  remember (main env w) as m eqn:Hm.
  unfold main, bind, print at 1 in Hm.
  match type of Hm with context [connect env ?x] =>
    destruct (connect_spec env x) as (b1 & w1 & E1 & L1 & (_ & C1e & C1i & C1r) & B1) end.
  rewrite E1 in Hm. simpl in L1, C1e, C1i, C1r.
  destruct b1; simpl in Hm.
  2:{ exists w1. subst m. auto. }
  destruct (access_layer_spec env w1) as (b2 & w2 & E2 & L2 & (_ & C2e & C2i & C2r) & B2).
  rewrite E2 in Hm.
  destruct b2; simpl in Hm.
  2:{ exists w2. subst m. repeat split; congruence. }
  destruct (ensure_flag_field_layer env w2)
    as (b3 & w3 & E3 & (_ & C3e & C3i & C3r) & B3 & Hsame & _).
  rewrite E3 in Hm. rewrite L2, L1 in B3.
  destruct b3; simpl in Hm.
  - exfalso. apply Hn. split; [now apply B1|]. split; [now apply B2|now apply B3].
  - exists w3. subst m. split; [reflexivity|].
    rewrite Hsame by now right. repeat split; congruence.
Qed.

Lemma login_refused_is_no_setup :
  ~ setup_succeeds env_login_refused (Sample.world Sample.backlog).
Proof. intros ([portal H] & _). discriminate H. Qed.

Lemma setup_failure_ends_the_run_witness :
  exists w',
    main env_login_refused (Sample.world Sample.backlog) = (Ok tt, w')
    /\ layer w' = layer (Sample.world Sample.backlog)
    /\ edits w' = edits (Sample.world Sample.backlog)
    /\ invocations w' = invocations (Sample.world Sample.backlog)
    /\ requests w' = requests (Sample.world Sample.backlog).
Proof.
  exact (setup_failure_ends_the_run env_login_refused
           (Sample.world Sample.backlog) login_refused_is_no_setup).
Defined.

(** X11.  When the query fails, the failure is printed as the last line and the
    run ends normally: no record is classified, no request and no batch is
    sent, and the rows are as they were. *)
Theorem query_failure_ends_the_run (env : Env) (w : World) (e : exn) :
  setup_succeeds env w ->
  query_fault env = Some e ->
  exists w',
    main env w = (Ok tt, w')
    /\ rows (layer w') = rows (layer w)
    /\ edits w' = edits w
    /\ invocations w' = invocations w
    /\ requests w' = requests w
    /\ last (stdout w') = Some (query_failed_line e).
Proof.
  intros Hs Hq.
  destruct (main_cases env w) as (w0 & (Hr & He & Hi & Hreq) & [(_ & Hn)|(_ & E)]);
    [contradiction|].
  rewrite E, query_and_process_unfold, Hq. cbv zeta.
  eexists. split; [reflexivity|]. simpl.
  repeat split; try assumption. now rewrite last_snoc.
Qed.

Lemma query_down_setup : setup_succeeds env_query_down (Sample.world Sample.backlog).
Proof.
  split; [now eexists|]. split; [now eexists|]. left. vm_compute.
  apply list_elem_of_In. simpl. tauto.
Qed.

Lemma query_failure_ends_the_run_witness :
  exists w',
    main env_query_down (Sample.world Sample.backlog) = (Ok tt, w')
    /\ rows (layer w') = rows (layer (Sample.world Sample.backlog))
    /\ edits w' = edits (Sample.world Sample.backlog)
    /\ invocations w' = invocations (Sample.world Sample.backlog)
    /\ requests w' = requests (Sample.world Sample.backlog)
    /\ last (stdout w') = Some (query_failed_line (Exception "timeout")).
Proof.
  exact (query_failure_ends_the_run env_query_down (Sample.world Sample.backlog)
           (Exception "timeout") query_down_setup eq_refl).
Defined.






Example backlog_batch_ids :
  map oid_of (List.filter unprocessed (rows Sample.backlog)) = [VInt 1; VInt 2].
Proof. vm_compute. reflexivity. Qed.

(** X13.  A batch write that fails as a whole does not stop the run: the
    exception is caught and printed in place of the report, and the batch
    counts as submitted. *)
Theorem write_failure_is_caught (env : Env) (updates : list Feature) (w : World)
    (e : exn) (l : Layer) :
  updates <> [] ->
  edit_features_service env (layer w) updates = (Raise e, l) ->
  apply_updates env updates w
  = (Ok tt,
     {| stdout := stdout w
                  ++ [ Print "\nApplying updates for {} feature(s)..."
                         [ANat (length updates)];
                       Print "Failed to apply updates to the layer. Error: {}"
                         [AExn e] ];
        requests := requests w;
        invocations := invocations w;
        layer := l;
        edits := edits w ++ [updates] |}).
Proof.
  intros Hne Hs. unfold apply_updates.
  destruct updates as [|u updates]; [contradiction|].
  unfold nonempty, bind, try_except, edit_features, print. simpl.
  rewrite Hs. simpl. unfold with_stdout. simpl. now rewrite <- app_assoc.
Qed.

Lemma write_failure_is_caught_witness :
  apply_updates env_write_down [Sample.feature 1 VNone (Some (VStr (Str.txt "OK")))]
    (Sample.world Sample.backlog)
  = (Ok tt,
     {| stdout := [ Print "\nApplying updates for {} feature(s)..." [ANat 1];
                    Print "Failed to apply updates to the layer. Error: {}"
                      [AExn (Exception "503")] ];
        requests := [];
        invocations := [];
        layer := Sample.backlog;
        edits := [[Sample.feature 1 VNone (Some (VStr (Str.txt "OK")))]] |}).
Proof.
  apply (write_failure_is_caught env_write_down
           [Sample.feature 1 VNone (Some (VStr (Str.txt "OK")))] (Sample.world Sample.backlog)
           (Exception "503") Sample.backlog); [discriminate|reflexivity].
Defined.

(** X14.  Step 6 prints that all features were updated exactly when every
    result of the answer carries a true [success]; a result without the
    key counts as failed, and an answer without [updateResults] as a full
    success. *)
Theorem success_line_iff_all_succeeded (result : EditResponse) :
  (update_errors result = []
   <-> Forall (fun r => success r = Some true) (default [] (updateResults result)))
  /\ (update_errors result = [] ->
      last (update_report_lines result)
      = Some (Print "All features updated successfully in the layer." []))
  /\ (updateResults result = None -> update_errors result = []).
Proof.
  unfold update_errors, update_report_lines. split; [|split].
  - induction (default [] (updateResults result)) as [|r rs IH]; simpl.
    + split; [constructor|reflexivity].
    + unfold succeeded at 1. destruct (success r) as [[]|] eqn:Hs; simpl.
      * rewrite IH. split; [now constructor|now inversion 1].
      * split; [discriminate|inversion 1; congruence].
      * split; [discriminate|inversion 1; congruence].
  - intros H. unfold update_errors. rewrite H. reflexivity.
  - intros ->. reflexivity.
Qed.



Example backlog_run_sends_one_request :
  requests (snd (main (Sample.env_answering "OK") (Sample.world Sample.backlog)))
  = [Sample.power_note].
Proof. vm_compute. reflexivity. Qed.

End RunFacts.
